(** * convert_html_to_md: HTML evaluation criteria to Markdown

    A shallow embedding of [convert_html_to_md.py]: the callbacks of
    [CriteriaHTMLParser] ([handle_starttag], [handle_endtag], [handle_data],
    [get_content]) as functions on an explicit parser record, and the
    joining and blank-line clean-up of [main].

    The tokenizer itself is [html.parser.HTMLParser] of the Python standard
    library; [feed] calls the three callbacks in document order.  Here a
    document is the list of callbacks the tokenizer makes for it. *)

From Stdlib Require Import String Ascii.
From Stdlib Require Import List NArith ZArith Bool Lia.
From Equations Require Import Equations.
Import ListNotations.

(** ** Python strings *)

Module Py.

(** A [str] is a sequence of Unicode code points. *)
Definition char := N.
Definition str := list char.

(** ASCII literals of the source. *)
Definition lit (s : string) : str :=
  map N_of_ascii (list_ascii_of_string s).

Definition nl : char := 10%N.
Definition sp : char := 32%N.

Fixpoint eqb (s t : str) : bool :=
  match s, t with
  | [], [] => true
  | a :: s', b :: t' => N.eqb a b && eqb s' t'
  | _, _ => false
  end.

(** [c.isspace()], which is also the class [\s] of [re] on [str]. *)
Definition whitespace : list char :=
  [9; 10; 11; 12; 13; 28; 29; 30; 31; 32; 133; 160; 5760;
   8192; 8193; 8194; 8195; 8196; 8197; 8198; 8199; 8200; 8201; 8202;
   8232; 8233; 8239; 8287; 12288]%N.

Definition isspace (c : char) : bool := existsb (N.eqb c) whitespace.

Definition is_nl (c : char) : bool := N.eqb c nl.

Fixpoint dropwhile (p : char -> bool) (s : str) : str :=
  match s with
  | [] => []
  | c :: s' => if p c then dropwhile p s' else s
  end.

(** Length of the longest prefix of [s] whose characters satisfy [p]. *)
Fixpoint run (p : char -> bool) (s : str) : nat :=
  match s with
  | [] => 0
  | c :: s' => if p c then S (run p s') else 0
  end.

Definition lstrip (s : str) : str := dropwhile isspace s.
Definition rstrip (s : str) : str := rev (dropwhile isspace (rev s)).

(** [s.strip()] *)
Definition strip (s : str) : str := rstrip (lstrip s).

(** [s.replace(a, b)] for one-character [a] and [b]. *)
Definition replace (a b : char) (s : str) : str :=
  map (fun c => if N.eqb c a then b else c) s.

Fixpoint startswith (p s : str) : bool :=
  match p, s with
  | [], _ => true
  | a :: p', b :: s' => N.eqb a b && startswith p' s'
  | _ :: _, [] => false
  end.

(** [sub in s] *)
Fixpoint contains (sub s : str) : bool :=
  startswith sub s ||
  match s with
  | [] => false
  | _ :: s' => contains sub s'
  end.

(** [s.split(sep)] for a one-character separator. *)
Fixpoint split (sep : char) (s : str) : list str :=
  match s with
  | [] => [[]]
  | c :: s' =>
      if N.eqb c sep then [] :: split sep s'
      else match split sep s' with
           | l :: ls => (c :: l) :: ls
           | [] => [[c]]
           end
  end.

(** [s * n]: no copy at all when [n] is zero or negative. *)
Definition mul (s : str) (n : Z) : str := concat (repeat s (Z.to_nat n)).

(** [''.join(l)] *)
Definition join (l : list str) : str := concat l.

(** [re.sub(pattern, repl, s)] for a pattern [X{lo,}] with [X] a character
    class and [lo >= 1]: scanning from the left, a position where a run of
    at least [lo] characters of the class starts is a match, the match is
    greedy (the whole run), it is replaced by [repl] and the scan goes on
    after it; any other character is copied. *)
Equations? re_sub (p : char -> bool) (lo : nat) (repl : str) (s : str) : str
  by wf (length s) lt :=
  re_sub p lo repl [] := [];
  re_sub p lo repl (c :: s') with (p c && (lo <=? S (run p s')))%bool => {
    | true := repl ++ re_sub p lo repl (dropwhile p s');
    | false := c :: re_sub p lo repl s' }.
Proof.
  simpl. apply Nat.lt_succ_r. clear.
  induction s' as [|a s' IH]; simpl; [lia|].
  destruct (p a); simpl; lia.
Qed.

End Py.

Notation "'py' s" := (Py.lit s%string) (at level 9, s at level 0, only parsing).

Open Scope Z_scope.

(** ** Exceptions *)

Inductive exn : Type := TypeError.

(** The outcome of a call that may raise. *)
Inductive result (A : Type) : Type :=
| Ok (a : A)
| Raise (e : exn).
Arguments Ok {A} a.
Arguments Raise {A} e.

Definition bind {A B} (r : result A) (k : A -> result B) : result B :=
  match r with
  | Ok a => k a
  | Raise e => Raise e
  end.

Notation "x <- r ;; k" := (bind r (fun x => k))
  (at level 61, r at next level, right associativity).

(** ** The parser object *)

(** A Python value that is a [str] or [None]. *)
Definition value := option Py.str.

(** The attributes of a start tag as the tokenizer passes them: name and
    value in document order, the value [None] for an attribute written
    without one ([<li style>]). *)
Definition attrs := list (Py.str * value).

(** The fields set by [CriteriaHTMLParser.__init__]. *)
Record CriteriaHTMLParser : Type := mkParser {
  content : list Py.str;
  current_tag : option Py.str;
  in_header : bool;
  in_title : bool;
  in_strong : bool;
  in_blockquote : bool;
  in_list : bool;
  list_level : Z;
  small_text_level : Z
}.

Definition init : CriteriaHTMLParser :=
  {| content := []; current_tag := None; in_header := false;
     in_title := false; in_strong := false; in_blockquote := false;
     in_list := false; list_level := 0; small_text_level := 0 |}.

Definition set_content v (st : CriteriaHTMLParser) :=
  mkParser v (current_tag st) (in_header st) (in_title st) (in_strong st)
    (in_blockquote st) (in_list st) (list_level st) (small_text_level st).
Definition set_current_tag v (st : CriteriaHTMLParser) :=
  mkParser (content st) v (in_header st) (in_title st) (in_strong st)
    (in_blockquote st) (in_list st) (list_level st) (small_text_level st).
Definition set_in_header v (st : CriteriaHTMLParser) :=
  mkParser (content st) (current_tag st) v (in_title st) (in_strong st)
    (in_blockquote st) (in_list st) (list_level st) (small_text_level st).
Definition set_in_strong v (st : CriteriaHTMLParser) :=
  mkParser (content st) (current_tag st) (in_header st) (in_title st) v
    (in_blockquote st) (in_list st) (list_level st) (small_text_level st).
Definition set_in_blockquote v (st : CriteriaHTMLParser) :=
  mkParser (content st) (current_tag st) (in_header st) (in_title st)
    (in_strong st) v (in_list st) (list_level st) (small_text_level st).
Definition set_in_list v (st : CriteriaHTMLParser) :=
  mkParser (content st) (current_tag st) (in_header st) (in_title st)
    (in_strong st) (in_blockquote st) v (list_level st) (small_text_level st).
Definition set_list_level v (st : CriteriaHTMLParser) :=
  mkParser (content st) (current_tag st) (in_header st) (in_title st)
    (in_strong st) (in_blockquote st) (in_list st) v (small_text_level st).
Definition set_small_text_level v (st : CriteriaHTMLParser) :=
  mkParser (content st) (current_tag st) (in_header st) (in_title st)
    (in_strong st) (in_blockquote st) (in_list st) (list_level st) v.

(** [self.content.append(s)] *)
Definition append (s : Py.str) (st : CriteriaHTMLParser) :=
  set_content (content st ++ [s]) st.

(** [dict(attrs).get(key, default)]: of several pairs with the same name the
    last one is the one the dictionary keeps. *)
Definition dict_get (key : Py.str) (default : value) (a : attrs) : value :=
  fold_left (fun acc kv => if Py.eqb (fst kv) key then snd kv else acc)
    a default.

(** [sub in v]: a [TypeError] when [v] is [None]. *)
Definition py_in (sub : Py.str) (v : value) : result bool :=
  match v with
  | Some s => Ok (Py.contains sub s)
  | None => Raise TypeError
  end.

(** [self.current_tag == t] *)
Definition tag_is (t : Py.str) (cur : option Py.str) : bool :=
  match cur with
  | Some c => Py.eqb c t
  | None => false
  end.

Definition handle_starttag (tag : Py.str) (a : attrs)
    (st0 : CriteriaHTMLParser) : result CriteriaHTMLParser :=
  let st := set_current_tag (Some tag) st0 in
  if Py.eqb tag (py "h1") then Ok (set_in_header true st)
  else if Py.eqb tag (py "h3") then Ok st
  else if Py.eqb tag (py "strong") then Ok (set_in_strong true st)
  else if Py.eqb tag (py "blockquote") then Ok (set_in_blockquote true st)
  else if Py.eqb tag (py "ul") then
    Ok (set_in_list true (set_list_level (list_level st + 1) st))
  else if Py.eqb tag (py "li") then
    let style := dict_get (py "style") (Some (py "")) a in
    circle <- py_in (py "circle") style ;;
    let prefix := if circle : bool then py "  - " else py "- " in
    let indent := Py.mul (py "  ") (list_level st - 1) in
    Ok (append (indent ++ prefix) st)
  else if Py.eqb tag (py "span") then
    let style := dict_get (py "style") (Some (py "")) a in
    small <- py_in (py "font-size:0.8em") style ;;
    small <- (if small : bool then Ok true
              else py_in (py "opacity:0.8") style) ;;
    if small : bool
    then Ok (set_small_text_level (small_text_level st + 1) st)
    else Ok st
  else Ok st.

Definition handle_endtag (tag : Py.str) (st : CriteriaHTMLParser)
    : CriteriaHTMLParser :=
  set_current_tag None
    (if Py.eqb tag (py "h1") then
       append [Py.nl; Py.nl] (set_in_header false st)
     else if Py.eqb tag (py "h3") then append [Py.nl; Py.nl] st
     else if Py.eqb tag (py "strong") then set_in_strong false st
     else if Py.eqb tag (py "blockquote") then
       append [Py.nl] (set_in_blockquote false st)
     else if Py.eqb tag (py "ul") then
       let st1 := set_list_level (list_level st - 1) st in
       if list_level st1 =? 0 then append [Py.nl] (set_in_list false st1)
       else st1
     else if Py.eqb tag (py "li") then append [Py.nl] st
     else if Py.eqb tag (py "span") then
       if 0 <? small_text_level st
       then set_small_text_level (small_text_level st - 1) st
       else st
     else if Py.eqb tag (py "p") then
       if negb (in_blockquote st) then append [Py.nl] st else st
     else st).

(** The text of a data event after [strip] and the two clean-up
    substitutions of [handle_data]. *)
Definition clean (data : Py.str) : Py.str :=
  Py.re_sub Py.isspace 1 [Py.sp] (Py.replace Py.nl Py.sp (Py.strip data)).

(** The body of the [for line in lines] loop of the block quote branch. *)
Definition quote_line (st : CriteriaHTMLParser) (line : Py.str)
    : CriteriaHTMLParser :=
  match Py.strip line with
  | [] => st
  | _ :: _ => append (py "> " ++ Py.strip line ++ [Py.nl]) st
  end.

Definition handle_data (data0 : Py.str) (st : CriteriaHTMLParser)
    : CriteriaHTMLParser :=
  match Py.strip data0 with
  | [] => st
  | _ :: _ =>
      let data := clean data0 in
      if in_header st && tag_is (py "h1") (current_tag st) then
        append (py "## " ++ data) st
      else if tag_is (py "h3") (current_tag st) then
        append (py "### " ++ data) st
      else if in_strong st then
        append (py "**" ++ data ++ py "**") st
      else if in_blockquote st then
        fold_left quote_line (Py.split Py.nl data) st
      else if 0 <? small_text_level st then
        append (py " *(" ++ data ++ py ")*") st
      else
        match data with
        | [] => st
        | _ :: _ => append data st
        end
  end.

Definition get_content (st : CriteriaHTMLParser) : Py.str :=
  Py.join (content st).

(** ** Feeding a document *)

(** The callbacks the tokenizer makes. *)
Inductive event : Type :=
| StartTag (tag : Py.str) (a : attrs)
| EndTag (tag : Py.str)
| Data (data : Py.str).

Definition handle (st : CriteriaHTMLParser) (e : event)
    : result CriteriaHTMLParser :=
  match e with
  | StartTag tag a => handle_starttag tag a st
  | EndTag tag => Ok (handle_endtag tag st)
  | Data data => Ok (handle_data data st)
  end.

(** [parser.feed(html)], the document given by its callbacks: an exception
    raised in a callback ends the run. *)
Fixpoint feed (evs : list event) (st : CriteriaHTMLParser)
    : result CriteriaHTMLParser :=
  match evs with
  | [] => Ok st
  | e :: evs' => st' <- handle st e ;; feed evs' st'
  end.

(** [parse_html_file] from the callbacks on: a fresh parser, [feed],
    [get_content]. *)
Definition parse_html (evs : list event) : result Py.str :=
  st <- feed evs init ;; Ok (get_content st).

(** ** The driver *)

Definition title_line : Py.str :=
  [35; 32; 50616; 47200; 32; 48372; 46020; 32; 54217; 44032; 32; 44592;
   51456; 32; 40; 44592; 51316; 32; 56; 54637; 47785; 41; 10; 10]%N.

Definition intro_line : Py.str :=
  [62; 32; 44592; 51316; 32; 54217; 44032; 32; 44592; 51456; 32; 56; 44060;
   32; 54637; 47785; 51012; 32; 53685; 54633; 54620; 32; 47928; 49436;
   51077; 45768; 45796; 46; 10; 10]%N.

Definition rule_line : Py.str := py "---" ++ [Py.nl; Py.nl].

(** [all_content] before the loop of [main]. *)
Definition preamble : list Py.str := [title_line; intro_line; rule_line].

Definition separator : Py.str := [Py.nl] ++ py "---" ++ [Py.nl; Py.nl].

(** One turn of the loop over [html_files]: [None] for a file that does not
    exist, otherwise what [parse_html_file] returned for it. *)
Definition add_file (all_content : list Py.str) (parsed : option Py.str)
    : list Py.str :=
  match parsed with
  | Some c => all_content ++ [c; separator]
  | None => all_content
  end.

Definition combine (all_content : list Py.str) (files : list (option Py.str))
    : list Py.str :=
  fold_left add_file files all_content.

(** [re.sub(r'\n{3,}', '\n\n', final_content)] *)
Definition collapse_newlines (s : Py.str) : Py.str :=
  Py.re_sub Py.is_nl 3 [Py.nl; Py.nl] s.

(** The text [main] writes, from the per-file results on. *)
Definition final_content (files : list (option Py.str)) : Py.str :=
  collapse_newlines (Py.join (combine preamble files)).

(** ** Documents used below, as the tokenizer reports them *)

(** [<h1>Title</h1>] *)
Definition h1_doc : list event :=
  [StartTag (py "h1") []; Data (py "Title"); EndTag (py "h1")].

(** [<h3>Sub</h3>] *)
Definition h3_doc : list event :=
  [StartTag (py "h3") []; Data (py "Sub"); EndTag (py "h3")].

(** [<blockquote>a\nb</blockquote>], a newline between [a] and [b]. *)
Definition quote_doc : list event :=
  [StartTag (py "blockquote") [];
   Data (py "a" ++ [Py.nl] ++ py "b");
   EndTag (py "blockquote")].

(** [see<span style="opacity:0.8">note</span>] *)
Definition small_doc : list event :=
  [Data (py "see");
   StartTag (py "span") [(py "style", Some (py "opacity:0.8"))];
   Data (py "note");
   EndTag (py "span")].

(** [<span style>x</span>]: a [style] attribute without a value. *)
Definition bare_span_doc : list event :=
  [StartTag (py "span") [(py "style", None)];
   Data (py "x");
   EndTag (py "span")].

(** [<ul><li style>] *)
Definition bare_li_doc : list event :=
  [StartTag (py "ul") []; StartTag (py "li") [(py "style", None)]].

(** [</ul>] with no list open. *)
Definition stray_ul_doc : list event := [EndTag (py "ul")].

(** The [style] a start tag is tested with. *)
Definition style_of (a : attrs) : value :=
  dict_get (py "style") (Some (py "")) a.

(** The spec's wording of the first span test, "declares a font size below
    1em", read on the declarations [font-size:0.Dem] with one decimal
    digit [D]. *)
Definition spec_small_font (style : Py.str) : bool :=
  existsb
    (fun d => Py.contains (py "font-size:0." ++ [d] ++ py "em") style)
    [48; 49; 50; 51; 52; 53; 54; 55; 56; 57]%N.

(** The tests of [handle_data] that come before the small-text one. *)
Definition plain_context (st : CriteriaHTMLParser) : bool :=
  negb (in_header st && tag_is (py "h1") (current_tag st)) &&
  negb (tag_is (py "h3") (current_tag st)) &&
  negb (in_strong st) &&
  negb (in_blockquote st).

(** The tests of [handle_data] that lead to the block quote branch. *)
Definition quote_context (st : CriteriaHTMLParser) : bool :=
  negb (in_header st && tag_is (py "h1") (current_tag st)) &&
  negb (tag_is (py "h3") (current_tag st)) &&
  negb (in_strong st) &&
  in_blockquote st.

(** No start tag of the document has a [style] without a value. *)
Definition styles_valued (evs : list event) : Prop :=
  Forall (fun e => match e with
                   | StartTag _ a => style_of a <> None
                   | _ => True
                   end) evs.

(** ** Measures on documents *)

(** What one callback adds to [list_level]. *)
Definition ul_delta (e : event) : Z :=
  match e with
  | StartTag tag _ => if Py.eqb tag (py "ul") then 1 else 0
  | EndTag tag => if Py.eqb tag (py "ul") then -1 else 0
  | Data _ => 0
  end.

Definition ul_balance (evs : list event) : Z :=
  fold_right Z.add 0 (map ul_delta evs).

(** A start tag [li] or [span] whose [style] has no value. *)
Definition bare_style (e : event) : bool :=
  match e with
  | StartTag tag a =>
      (Py.eqb tag (py "li") || Py.eqb tag (py "span")) &&
      match style_of a with
      | None => true
      | Some _ => false
      end
  | _ => false
  end.

(** The second test of the span branch, on a [style] that has a value. *)
Definition small_style (style : Py.str) : bool :=
  Py.contains (py "font-size:0.8em") style
  || Py.contains (py "opacity:0.8") style.

Definition triple_nl : Py.str := [Py.nl; Py.nl; Py.nl].

Definition double_sp : Py.str := [Py.sp; Py.sp].

Definition not_nl (c : Py.char) : bool := negb (Py.is_nl c).

(** Sequences of callbacks with one data event between the start and the
    end of an element: a start tag [strong], [p], [blockquote] then [p],
    or [ul] then [li], the one data event with the text [x], and the end
    tags.  [a] are the attributes of the outer start tag.  (They are the
    callbacks of a document only when the tokenizer passes the whole text
    between the tags in one data event.) *)
Definition strong_doc (a : attrs) (x : Py.str) : list event :=
  [StartTag (py "strong") a; Data x; EndTag (py "strong")].

Definition para_doc (a : attrs) (x : Py.str) : list event :=
  [StartTag (py "p") a; Data x; EndTag (py "p")].

Definition quote_para_doc (a : attrs) (x : Py.str) : list event :=
  [StartTag (py "blockquote") a; StartTag (py "p") []; Data x;
   EndTag (py "p"); EndTag (py "blockquote")].

Definition list_doc (a : attrs) (x : Py.str) : list event :=
  [StartTag (py "ul") a; StartTag (py "li") []; Data x;
   EndTag (py "li"); EndTag (py "ul")].

(** The text of [preamble] up to the rule, without the two newlines that
    end it. *)
Definition preamble_head : Py.str := title_line ++ intro_line ++ py "---".

(** The output of a run that starts in the state [st]; [parse_html] is the
    one that starts with a fresh parser. *)
Definition rendered (evs : list event) (st : CriteriaHTMLParser)
    : result Py.str :=
  st' <- feed evs st ;; Ok (get_content st').

(** The state without the two flags [in_title] and [in_list]. *)
Definition forget_hints (st : CriteriaHTMLParser) : CriteriaHTMLParser :=
  mkParser (content st) (current_tag st) (in_header st) false (in_strong st)
    (in_blockquote st) false (list_level st) (small_text_level st).

(** ** The run of [main] *)

(** What reading an existing file and feeding its text to the parser does:
    the callbacks made, in order, and whether [open], [read] or the
    tokenizer itself raises once they are made (the tokenizer of
    [html.parser] does on a malformed marked section such as [<![1]>]). *)
Record fed : Type := mkFed {
  callbacks : list event;
  raises_after : bool
}.

(** Why a run ended early: a callback raised, or the reading or the
    tokenizer did. *)
Inductive failure : Type :=
| CallbackRaised (e : exn)
| ReaderRaised.

Inductive outcome (A : Type) : Type :=
| Done (a : A)
| Failed (f : failure).
Arguments Done {A} a.
Arguments Failed {A} f.

(** [parse_html_file]: a fresh parser, the callbacks, [get_content]. *)
Definition parse_html_file (f : fed) : outcome Py.str :=
  match feed (callbacks f) init with
  | Raise e => Failed (CallbackRaised e)
  | Ok st =>
      if raises_after f then Failed ReaderRaised else Done (get_content st)
  end.

(** The loop of [main] over [html_files], the files given in the order of
    the list: [None] for a file that does not exist.  An exception of
    [parse_html_file] ends the loop. *)
Fixpoint main_loop (files : list (option fed)) (all_content : list Py.str)
    : outcome (list Py.str) :=
  match files with
  | [] => Done all_content
  | None :: files' => main_loop files' all_content
  | Some f :: files' =>
      match parse_html_file f with
      | Done c => main_loop files' (all_content ++ [c; separator])
      | Failed x => Failed x
      end
  end.

(** The text [main] has for the output file when it opens it; the file is
    not opened when the loop raises. *)
Definition main (files : list (option fed)) : outcome Py.str :=
  match main_loop files preamble with
  | Done all_content => Done (collapse_newlines (Py.join all_content))
  | Failed x => Failed x
  end.

(** A file that exists and on which [parse_html_file] raises: it holds a
    [li] or [span] whose [style] has no value among the callbacks made, or
    the reading or the tokenizer raises. *)
Definition file_fails (f : option fed) : bool :=
  match f with
  | Some t => existsb bare_style (callbacks t) || raises_after t
  | None => false
  end.

(** [out] is what [parse_html_file] returns for the file [f]. *)
Definition file_output (f : option fed) (out : option Py.str) : Prop :=
  match f, out with
  | None, None => True
  | Some t, Some c => parse_html_file t = Done c
  | _, _ => False
  end.

(** * Properties *)

Lemma strip_nonempty_inv data :
  Py.strip data <> [] -> exists c s, Py.strip data = c :: s.
Proof.
  destruct (Py.strip data) as [|c s]; [congruence | eauto].
Qed.

(** What [handle_data] does once the trimmed text is known not to be empty. *)
Lemma handle_data_nonempty data st :
  Py.strip data <> [] ->
  handle_data data st =
    if in_header st && tag_is (py "h1") (current_tag st) then
      append (py "## " ++ clean data) st
    else if tag_is (py "h3") (current_tag st) then
      append (py "### " ++ clean data) st
    else if in_strong st then
      append (py "**" ++ clean data ++ py "**") st
    else if in_blockquote st then
      fold_left quote_line (Py.split Py.nl (clean data)) st
    else if 0 <? small_text_level st then
      append (py " *(" ++ clean data ++ py ")*") st
    else
      match clean data with
      | [] => st
      | _ :: _ => append (clean data) st
      end.
Proof.
  intros H. destruct (strip_nonempty_inv data H) as (c & s & E).
  unfold handle_data. rewrite E. reflexivity.
Qed.

(** ** Headings *)

(** C6.  The document [<h1>Title</h1>] is rendered as exactly
    ["## Title\n\n"]: a data event inside an open [h1] appends ["## "]
    followed by the text, and the close of [h1] appends two newlines. *)
Theorem h1_round_trip :
  parse_html h1_doc = Ok (py "## Title" ++ [Py.nl; Py.nl]) /\
  (forall data st,
      Py.strip data <> [] ->
      in_header st = true ->
      current_tag st = Some (py "h1") ->
      handle_data data st = append (py "## " ++ clean data) st) /\
  (forall st,
      handle_endtag (py "h1") st =
        set_current_tag None (append [Py.nl; Py.nl] (set_in_header false st))).
Proof.
  split; [reflexivity | split].
  - intros data st Hne Hh Ht.
    rewrite (handle_data_nonempty data st Hne), Hh, Ht. reflexivity.
  - intros st. reflexivity.
Qed.

Lemma h1_round_trip_witness :
  Py.strip (py "Title") <> [] /\
  handle_data (py "Title") (set_in_header true (set_current_tag (Some (py "h1")) init))
  = append (py "## " ++ clean (py "Title"))
      (set_in_header true (set_current_tag (Some (py "h1")) init)).
Proof.
  split; [discriminate|].
  apply (proj1 (proj2 h1_round_trip)); [discriminate | reflexivity | reflexivity].
Defined.

(** C7.  The close of [h3] appends two newlines whatever the state of the
    parser, and [<h3>Sub</h3>] is rendered as exactly ["### Sub\n\n"]. *)
Theorem h3_close_unconditional :
  (forall st,
      handle_endtag (py "h3") st =
        set_current_tag None (append [Py.nl; Py.nl] st)) /\
  (forall st,
      content (handle_endtag (py "h3") st) = content st ++ [[Py.nl; Py.nl]]) /\
  parse_html h3_doc = Ok (py "### Sub" ++ [Py.nl; Py.nl]).
Proof.
  repeat split; reflexivity.
Qed.

(** ** Data events only append *)

Lemma set_content_same st : set_content (content st) st = st.
Proof. destruct st; reflexivity. Qed.

Lemma quote_lines_frame lines :
  forall st, exists frags,
    fold_left quote_line lines st = set_content (content st ++ frags) st.
Proof.
  induction lines as [|l lines IH]; intros st; simpl.
  - exists []. rewrite app_nil_r. symmetry. apply set_content_same.
  - destruct (IH (quote_line st l)) as [frags E]. rewrite E.
    unfold quote_line. destruct (Py.strip l) as [|c t].
    + exists frags. reflexivity.
    + exists ((py "> " ++ (c :: t) ++ [Py.nl]) :: frags).
      unfold append, set_content. simpl. rewrite <- app_assoc. reflexivity.
Qed.

Lemma handle_data_appends data st :
  exists frags, handle_data data st = set_content (content st ++ frags) st.
Proof.
  assert (Hnil : st = set_content (content st ++ []) st)
    by (rewrite app_nil_r; symmetry; apply set_content_same).
  unfold handle_data. destruct (Py.strip data) as [|c t].
  { exists []. exact Hnil. }
  destruct (in_header st && tag_is (py "h1") (current_tag st));
    [eexists [_]; reflexivity|].
  destruct (tag_is (py "h3") (current_tag st)); [eexists [_]; reflexivity|].
  destruct (in_strong st); [eexists [_]; reflexivity|].
  destruct (in_blockquote st); [apply quote_lines_frame|].
  destruct (0 <? small_text_level st); [eexists [_]; reflexivity|].
  destruct (clean data); [exists []; exact Hnil | eexists [_]; reflexivity].
Qed.

(** C10.  A data event only appends to [content]: every other field of the
    parser is as before, and what [content] held before is a prefix of what
    it holds after.  This holds for every data event, the non-empty ones in
    particular. *)
Theorem handle_data_frame data st :
  exists frags,
    content (handle_data data st) = content st ++ frags /\
    current_tag (handle_data data st) = current_tag st /\
    in_header (handle_data data st) = in_header st /\
    in_title (handle_data data st) = in_title st /\
    in_strong (handle_data data st) = in_strong st /\
    in_blockquote (handle_data data st) = in_blockquote st /\
    in_list (handle_data data st) = in_list st /\
    list_level (handle_data data st) = list_level st /\
    small_text_level (handle_data data st) = small_text_level st.
Proof.
  destruct (handle_data_appends data st) as [frags E].
  exists frags. rewrite E. repeat split; reflexivity.
Qed.

(** A data event whose text is empty after [strip] changes nothing. *)
Lemma handle_data_blank data st :
  Py.strip data = [] -> handle_data data st = st.
Proof. intros E. unfold handle_data. rewrite E. reflexivity. Qed.

(** ** Start tags *)

Lemma handle_starttag_li a st :
  handle_starttag (py "li") a st =
    (circle <- py_in (py "circle") (style_of a) ;;
     Ok (append (Py.mul (py "  ") (list_level st - 1) ++
                 (if circle : bool then py "  - " else py "- "))
           (set_current_tag (Some (py "li")) st))).
Proof. reflexivity. Qed.

Lemma handle_starttag_span a st :
  handle_starttag (py "span") a st =
    (small <- py_in (py "font-size:0.8em") (style_of a) ;;
     small <- (if small : bool then Ok true
               else py_in (py "opacity:0.8") (style_of a)) ;;
     if small : bool
     then Ok (set_small_text_level (small_text_level st + 1)
                (set_current_tag (Some (py "span")) st))
     else Ok (set_current_tag (Some (py "span")) st)).
Proof. reflexivity. Qed.

Lemma mul_two_spaces n :
  Py.mul (py "  ") n = repeat Py.sp (2 * Z.to_nat n).
Proof.
  unfold Py.mul. induction (Z.to_nat n) as [|k IH]; [reflexivity|].
  replace (2 * S k)%nat with (S (S (2 * k))) by lia.
  simpl repeat. simpl concat. rewrite IH. reflexivity.
Qed.

(** With a [style] that is absent or has a value, a list item opened at
    depth [d >= 1] appends the indentation of [2 * (d - 1)] spaces and the
    bullet, and nothing else. *)
Lemma li_open_valued a st style :
  style_of a = Some style ->
  1 <= list_level st ->
  handle_starttag (py "li") a st =
    Ok (append (repeat Py.sp (2 * Z.to_nat (list_level st - 1)) ++
                (if Py.contains (py "circle") style
                 then py "  - " else py "- "))
          (set_current_tag (Some (py "li")) st)).
Proof.
  intros Hs _. rewrite handle_starttag_li, Hs. simpl.
  rewrite mul_two_spaces. reflexivity.
Qed.

(** C5.  At depth 1 a list item whose [style] attribute has no value
    ([<ul><li style>]) appends no prefix: the test for the circle bullet
    raises [TypeError], where the bullet ["- "] was due. *)
Theorem li_bare_style_raises :
  (exists st, feed [StartTag (py "ul") []] init = Ok st /\ list_level st = 1) /\
  style_of [(py "style", None)] = None /\
  feed bare_li_doc init = Raise TypeError.
Proof. split; [eexists; split; reflexivity | split; reflexivity]. Qed.

(** A start tag raises only on a [style] without a value. *)
Lemma handle_starttag_valued tag a st :
  style_of a <> None -> exists st', handle_starttag tag a st = Ok st'.
Proof.
  intros Hs. unfold handle_starttag. fold (style_of a).
  destruct (style_of a) as [style|]; [|congruence].
  repeat (simpl; match goal with
                 | |- context [if ?b then _ else _] => destruct b
                 end); simpl; eauto.
Qed.

Lemma feed_valued evs :
  styles_valued evs -> forall st, exists st', feed evs st = Ok st'.
Proof.
  induction 1 as [|e evs He _ IH]; intros st; simpl; [eauto|].
  destruct e as [tag a| tag | data]; simpl; try apply IH.
  destruct (handle_starttag_valued tag a st He) as [st1 E].
  rewrite E. simpl. apply IH.
Qed.

(** C8.  The document [<span style>x</span>] makes the run raise
    [TypeError]: the [style] of the span is [None] and the substring test
    on it fails. *)
Theorem bare_span_style_raises :
  parse_html bare_span_doc = Raise TypeError.
Proof. reflexivity. Qed.

(** ** Depth counters *)

Lemma handle_starttag_small_nonneg tag a st st' :
  handle_starttag tag a st = Ok st' ->
  0 <= small_text_level st -> 0 <= small_text_level st'.
Proof.
  unfold handle_starttag. fold (style_of a).
  destruct (style_of a) as [style|];
    repeat (simpl; match goal with
                   | |- context [if ?b then _ else _] => destruct b
                   end);
    simpl; intros E; inversion E; subst; simpl; lia.
Qed.

Lemma handle_endtag_small_nonneg tag st :
  0 <= small_text_level st -> 0 <= small_text_level (handle_endtag tag st).
Proof.
  unfold handle_endtag.
  repeat match goal with
         | |- context [if ?b then _ else _] => destruct b eqn:?
         end; simpl; lia.
Qed.

(** [small_text_level] never goes below zero. *)
Lemma small_text_level_nonneg evs :
  forall st st',
    feed evs st = Ok st' ->
    0 <= small_text_level st -> 0 <= small_text_level st'.
Proof.
  induction evs as [|e evs IH]; simpl; intros st st' E H.
  - inversion E; subst; exact H.
  - destruct e as [tag a | tag | data]; simpl in E.
    + destruct (handle_starttag tag a st) as [st1|] eqn:E1; simpl in E;
        [|discriminate].
      eapply IH; [exact E|]. eapply handle_starttag_small_nonneg; eauto.
    + eapply IH; [exact E|]. now apply handle_endtag_small_nonneg.
    + eapply IH; [exact E|].
      destruct (handle_data_appends data st) as [frags Ed]. rewrite Ed.
      exact H.
Qed.

(** C3.  A close of [ul] with no list open takes [list_level] from 0 to
    -1: the decrement has no guard, unlike the one of [small_text_level]
    at the close of a span. *)
Theorem stray_ul_close_goes_negative :
  exists st,
    feed stray_ul_doc init = Ok st /\
    list_level st = -1 /\
    ~ 0 <= list_level st.
Proof.
  eexists. split; [reflexivity|]. split; [reflexivity|]. simpl. lia.
Qed.

(** The decrement at the close of [ul] is unconditional; the one at the
    close of [span] is guarded. *)
Lemma close_ul_level st :
  list_level (handle_endtag (py "ul") st) = list_level st - 1.
Proof.
  unfold handle_endtag. simpl.
  destruct (list_level st - 1 =? 0); reflexivity.
Qed.

Lemma close_span_level st :
  small_text_level (handle_endtag (py "span") st) =
    if 0 <? small_text_level st then small_text_level st - 1
    else small_text_level st.
Proof.
  unfold handle_endtag. simpl.
  destruct (0 <? small_text_level st); reflexivity.
Qed.

(** ** Small text *)

(** C4, as first stated, fails: the style [font-size:0.5em] declares a font
    size below 1em, and the span that carries it is not counted. *)
Lemma span_half_em_not_counted :
  spec_small_font (py "font-size:0.5em") = true /\
  exists st,
    handle_starttag (py "span")
      [(py "style", Some (py "font-size:0.5em"))] init = Ok st /\
    small_text_level st <> small_text_level init + 1.
Proof.
  split; [reflexivity|].
  eexists. split; [reflexivity|]. simpl. lia.
Qed.

(** C4, amended.  A span whose [style] is absent or has a value adds one
    to [small_text_level] when the value contains the text
    [font-size:0.8em] or the text [opacity:0.8], and leaves
    [small_text_level] as it is when the value contains neither; a
    non-empty data event met with [small_text_level > 0] outside a
    heading, a bold and a block quote appends [" *(" + text + ")*"]; and
    ["see"] followed by the span [opacity:0.8] around ["note"] is rendered
    as ["see *(note)*"]. *)
Theorem small_text_rendering :
  (forall a st style,
      style_of a = Some style ->
      handle_starttag (py "span") a st =
        Ok (if Py.contains (py "font-size:0.8em") style
               || Py.contains (py "opacity:0.8") style
            then set_small_text_level (small_text_level st + 1)
                   (set_current_tag (Some (py "span")) st)
            else set_current_tag (Some (py "span")) st)) /\
  (forall data st,
      Py.strip data <> [] ->
      plain_context st = true ->
      0 < small_text_level st ->
      handle_data data st = append (py " *(" ++ clean data ++ py ")*") st) /\
  parse_html small_doc = Ok (py "see *(note)*").
Proof.
  split; [|split; [|reflexivity]].
  - intros a st style Hs.
    rewrite handle_starttag_span, Hs. cbn [py_in bind].
    destruct (Py.contains (py "font-size:0.8em") style); cbn [bind orb];
      [reflexivity|].
    destruct (Py.contains (py "opacity:0.8") style); reflexivity.
  - intros data st Hne Hp Hl.
    rewrite (handle_data_nonempty data st Hne).
    unfold plain_context in Hp.
    apply andb_prop in Hp as [Hp Hq]. apply andb_prop in Hp as [Hp Hs].
    apply andb_prop in Hp as [Hh H3].
    apply negb_true_iff in Hh, H3, Hs, Hq.
    rewrite Hh, H3, Hs, Hq.
    apply Z.ltb_lt in Hl. rewrite Hl. reflexivity.
Qed.

Lemma small_text_rendering_witness :
  handle_starttag (py "span") [(py "style", Some (py "opacity:0.8"))] init =
    Ok (set_small_text_level 1 (set_current_tag (Some (py "span")) init)) /\
  handle_starttag (py "span") [(py "style", Some (py "font-size:0.5em"))]
    (set_small_text_level 1 init) =
    Ok (set_current_tag (Some (py "span")) (set_small_text_level 1 init)) /\
  handle_data (py "note")
    (set_small_text_level 1 (set_current_tag (Some (py "span")) init)) =
    append (py " *(" ++ clean (py "note") ++ py ")*")
      (set_small_text_level 1 (set_current_tag (Some (py "span")) init)).
Proof.
  split; [|split].
  - exact (proj1 small_text_rendering
             [(py "style", Some (py "opacity:0.8"))] init (py "opacity:0.8")
             eq_refl).
  - exact (proj1 small_text_rendering
             [(py "style", Some (py "font-size:0.5em"))]
             (set_small_text_level 1 init) (py "font-size:0.5em") eq_refl).
  - apply (proj1 (proj2 small_text_rendering)).
    + discriminate.
    + reflexivity.
    + simpl. lia.
Defined.

(** ** Joining the files *)

Lemma combine_app files :
  forall acc,
    combine acc files =
      acc ++ flat_map (fun f => match f with
                                | Some c => [c; separator]
                                | None => []
                                end) files.
Proof.
  induction files as [|f files IH]; intros acc; simpl.
  - now rewrite app_nil_r.
  - unfold combine in *. simpl. rewrite IH.
    destruct f as [c|]; simpl; [|reflexivity].
    rewrite <- app_assoc. reflexivity.
Qed.

(** C2, as first stated, fails: after the fragments ["A"] and ["B"] the
    loop has also appended the separator that follows ["B"]. *)
Lemma join_two_counterexample :
  Py.join (combine [] [Some (py "A"); Some (py "B")]) <>
    py "A" ++ separator ++ py "B".
Proof. discriminate. Qed.

(** C2, amended.  The loop appends every fragment followed by the
    separator ["\n---\n\n"], the last fragment too, after what was there
    before; files that are absent add nothing.  The fragments ["A"] and
    ["B"] give ["A\n---\n\nB\n---\n\n"] after the three opening lines. *)
Theorem join_separator_after_each :
  (forall acc frags,
      Py.join (combine acc (map Some frags)) =
        Py.join acc ++ concat (map (fun c => c ++ separator) frags)) /\
  (forall acc files,
      combine acc files =
        combine acc (map Some (flat_map (fun f => match f with
                                                  | Some c => [c]
                                                  | None => []
                                                  end) files))) /\
  Py.join (combine preamble [Some (py "A"); Some (py "B")]) =
    title_line ++ intro_line ++ rule_line ++
    py "A" ++ separator ++ py "B" ++ separator.
Proof.
  split; [|split; [|reflexivity]].
  - intros acc frags. rewrite combine_app. unfold Py.join.
    rewrite concat_app. f_equal.
    induction frags as [|c frags IH]; simpl; [reflexivity|].
    rewrite IH, <- app_assoc. reflexivity.
  - intros acc files. rewrite !combine_app. f_equal.
    induction files as [|[c|] files IH]; simpl; [reflexivity | | exact IH].
    rewrite IH. reflexivity.
Qed.

(** ** Substitution of runs *)

Section ReSub.

Local Open Scope nat_scope.

Variable p : Py.char -> bool.
Variable lo : nat.
Variable repl : Py.str.

Lemma re_sub_cons c s :
  Py.re_sub p lo repl (c :: s) =
    if p c && (lo <=? S (Py.run p s))
    then repl ++ Py.re_sub p lo repl (Py.dropwhile p s)
    else c :: Py.re_sub p lo repl s.
Proof.
  simp re_sub.
  destruct (p c && (lo <=? S (Py.run p s))); reflexivity.
Qed.

Lemma re_sub_copy c s :
  p c = false -> Py.re_sub p lo repl (c :: s) = c :: Py.re_sub p lo repl s.
Proof. intros H. rewrite re_sub_cons, H. reflexivity. Qed.

Lemma length_dropwhile s : length (Py.dropwhile p s) <= length s.
Proof.
  induction s as [|c s IH]; simpl; [lia|].
  destruct (p c); simpl; lia.
Qed.

Lemma dropwhile_head s c t : Py.dropwhile p s = c :: t -> p c = false.
Proof.
  induction s as [|a s IH]; simpl; [discriminate|].
  destruct (p a) eqn:E; [exact IH|].
  intros H. inversion H; subst. exact E.
Qed.

Lemma dropwhile_suffix s : exists pre, s = pre ++ Py.dropwhile p s.
Proof.
  induction s as [|a s [pre IH]]; simpl.
  - exists []. reflexivity.
  - destruct (p a).
    + exists (a :: pre). simpl. now rewrite <- IH.
    + exists []. reflexivity.
Qed.

Lemma run_dropwhile s : Py.run p (Py.dropwhile p s) = 0.
Proof.
  induction s as [|a s IH]; simpl; [reflexivity|].
  destruct (p a) eqn:E; [exact IH|]. simpl. now rewrite E.
Qed.

Lemma run_app_stop t c u :
  p c = false -> Py.run p (t ++ c :: u) = Py.run p t.
Proof.
  intros H. induction t as [|a t IH]; simpl.
  - now rewrite H.
  - destruct (p a); [now rewrite IH | reflexivity].
Qed.

Lemma dropwhile_app_stop t c u :
  p c = false ->
  Py.dropwhile p (t ++ c :: u) = Py.dropwhile p t ++ c :: u.
Proof.
  intros H. induction t as [|a t IH]; simpl.
  - now rewrite H.
  - destruct (p a); [exact IH | reflexivity].
Qed.

(** A character outside the class is never part of a match: the
    substitution works on both sides of it independently. *)
Lemma re_sub_app_stop c u :
  p c = false ->
  forall t,
    Py.re_sub p lo repl (t ++ c :: u) =
      Py.re_sub p lo repl t ++ c :: Py.re_sub p lo repl u.
Proof.
  intros H t.
  induction t as [t IH] using (induction_ltof1 _ (@length Py.char)).
  unfold ltof in IH. destruct t as [|a t].
  - simpl. now rewrite re_sub_copy.
  - simpl app. rewrite !re_sub_cons.
    rewrite run_app_stop, dropwhile_app_stop by exact H.
    destruct (p a && (lo <=? S (Py.run p t))).
    + rewrite IH, app_assoc; [reflexivity|].
      pose proof (length_dropwhile t). simpl. lia.
    + rewrite IH; [reflexivity | simpl; lia].
Qed.

End ReSub.

Section ReSubOne.

Variable p : Py.char -> bool.
Variable repl : Py.str.

(** With [lo = 1] every character of the class is replaced: what is left
    is outside the class or comes from [repl]. *)
Lemma re_sub_one_chars s :
  Forall (fun x => p x = false \/ In x repl) (Py.re_sub p 1 repl s).
Proof.
  induction s as [s IH] using (induction_ltof1 _ (@length Py.char)).
  unfold ltof in IH. destruct s as [|c s]; [simp re_sub; constructor|].
  rewrite re_sub_cons.
  replace (1 <=? S (Py.run p s))%nat with true by reflexivity.
  rewrite andb_true_r. destruct (p c) eqn:E.
  - apply Forall_app. split.
    + apply Forall_forall. intros x Hx. now right.
    + apply IH. pose proof (length_dropwhile p s). simpl. lia.
  - constructor; [now left | apply IH; simpl; lia].
Qed.

End ReSubOne.

(** ** The blank-line clean-up *)

Lemma run_collapse s :
  Py.run Py.is_nl (collapse_newlines s) =
    if (3 <=? Py.run Py.is_nl s)%nat then 2%nat else Py.run Py.is_nl s.
Proof.
  unfold collapse_newlines.
  induction s as [s IH] using (induction_ltof1 _ (@length Py.char)).
  unfold ltof in IH. destruct s as [|c s]; [reflexivity|].
  rewrite re_sub_cons. simpl Py.run at 3 4.
  destruct (Py.is_nl c) eqn:Ec; simpl andb.
  - destruct (Py.run Py.is_nl s) as [|[|n]] eqn:Er; simpl Nat.leb.
    + simpl. rewrite Ec, IH, Er by (simpl; lia). reflexivity.
    + simpl. rewrite Ec, IH, Er by (simpl; lia). reflexivity.
    + simpl. rewrite IH, run_dropwhile.
      * reflexivity.
      * pose proof (length_dropwhile Py.is_nl s). simpl. lia.
  - simpl. rewrite Ec. reflexivity.
Qed.

(** C9.  Replacing every run of three or more newlines by two newlines is
    idempotent. *)
Theorem collapse_newlines_idempotent s :
  collapse_newlines (collapse_newlines s) = collapse_newlines s.
Proof.
  induction s as [s IH] using (induction_ltof1 _ (@length Py.char)).
  unfold ltof in IH. destruct s as [|c s]; [reflexivity|].
  unfold collapse_newlines at 2 3. rewrite re_sub_cons.
  fold (collapse_newlines s). fold (collapse_newlines (Py.dropwhile Py.is_nl s)).
  destruct (Py.is_nl c && (3 <=? S (Py.run Py.is_nl s))%nat) eqn:E.
  - assert (Hr : Py.run Py.is_nl (collapse_newlines (Py.dropwhile Py.is_nl s)) = 0%nat)
      by (rewrite run_collapse, run_dropwhile; reflexivity).
    unfold collapse_newlines at 1. simpl app.
    rewrite re_sub_cons. simpl Py.run. rewrite Hr. simpl.
    rewrite re_sub_cons, Hr. simpl.
    fold (collapse_newlines (collapse_newlines (Py.dropwhile Py.is_nl s))).
    rewrite IH; [reflexivity|].
    pose proof (length_dropwhile Py.is_nl s). simpl. lia.
  - unfold collapse_newlines at 1. rewrite re_sub_cons.
    fold (collapse_newlines (collapse_newlines s)).
    rewrite run_collapse.
    replace (Py.is_nl c &&
             (3 <=? S (if (3 <=? Py.run Py.is_nl s)%nat then 2%nat
                       else Py.run Py.is_nl s))%nat) with false.
    + rewrite IH; [reflexivity | simpl; lia].
    + destruct (Py.is_nl c); [|reflexivity]. simpl andb in *.
      destruct (Py.run Py.is_nl s) as [|[|n]]; simpl in *; congruence.
Qed.

(** ** Block quotes *)

Lemma split_no_sep sep s : ~ In sep s -> Py.split sep s = [s].
Proof.
  induction s as [|c s IH]; simpl; intros H; [reflexivity|].
  destruct (N.eqb_spec c sep) as [E|E]; [tauto|].
  rewrite IH by tauto. reflexivity.
Qed.

(** A non-empty result of [strip] starts and ends outside the white
    space. *)
Lemma strip_ends s c t :
  Py.strip s = c :: t ->
  Py.isspace c = false /\
  exists u z, c :: t = u ++ [z] /\ Py.isspace z = false.
Proof.
  unfold Py.strip, Py.rstrip. intros E.
  destruct (Py.dropwhile Py.isspace (rev (Py.lstrip s))) as [|z w] eqn:Ew;
    [discriminate|].
  pose proof (dropwhile_head _ _ _ _ Ew) as Hz.
  split; [|exists (rev w), z; split; [rewrite <- E; reflexivity | exact Hz]].
  destruct (dropwhile_suffix Py.isspace (rev (Py.lstrip s))) as [pre Hp].
  rewrite Ew in Hp. apply (f_equal (@rev _)) in Hp.
  rewrite rev_involutive, rev_app_distr, E in Hp. simpl in Hp.
  unfold Py.lstrip in Hp. exact (dropwhile_head _ _ _ _ Hp).
Qed.

Lemma strip_fixed c x y z :
  Py.isspace c = false -> Py.isspace z = false ->
  c :: x = y ++ [z] -> Py.strip (c :: x) = c :: x.
Proof.
  intros Hc Hz E. unfold Py.strip, Py.lstrip. simpl. rewrite Hc.
  unfold Py.rstrip. rewrite E, rev_app_distr. simpl. rewrite Hz.
  simpl. rewrite rev_involutive. reflexivity.
Qed.

Lemma replace_nl_keeps c :
  Py.isspace c = false -> (if N.eqb c Py.nl then Py.sp else c) = c.
Proof.
  intros H. destruct (N.eqb_spec c Py.nl) as [E|E]; [|reflexivity].
  subst. discriminate.
Qed.

(** The cleaned text of a non-empty data event is not empty, holds no
    newline and is its own [strip]. *)
Lemma clean_shape data :
  Py.strip data <> [] ->
  clean data <> [] /\
  ~ In Py.nl (clean data) /\
  Py.strip (clean data) = clean data.
Proof.
  intros Hne. destruct (strip_nonempty_inv data Hne) as (c & t & E).
  destruct (strip_ends _ _ _ E) as (Hc & u & z & Eu & Hz).
  assert (Hnl : ~ In Py.nl (clean data)).
  { intros Hin. unfold clean in Hin.
    pose proof (re_sub_one_chars Py.isspace [Py.sp]
                  (Py.replace Py.nl Py.sp (Py.strip data))) as HF.
    rewrite Forall_forall in HF.
    destruct (HF _ Hin) as [H|[H|[]]]; discriminate. }
  unfold clean in *. rewrite E in *.
  assert (E1 : Py.re_sub Py.isspace 1 [Py.sp] (Py.replace Py.nl Py.sp (c :: t))
               = c :: Py.re_sub Py.isspace 1 [Py.sp] (Py.replace Py.nl Py.sp t)).
  { simpl. rewrite (replace_nl_keeps c Hc). now apply re_sub_copy. }
  assert (E2 : Py.re_sub Py.isspace 1 [Py.sp] (Py.replace Py.nl Py.sp (c :: t))
               = Py.re_sub Py.isspace 1 [Py.sp] (Py.replace Py.nl Py.sp u) ++ [z]).
  { rewrite Eu. unfold Py.replace. rewrite map_app. simpl map at 2.
    rewrite (replace_nl_keeps z Hz).
    rewrite re_sub_app_stop by exact Hz. reflexivity. }
  split; [rewrite E1; discriminate|].
  split; [exact Hnl|].
  rewrite E1. eapply strip_fixed; [exact Hc | exact Hz |].
  rewrite <- E1. exact E2.
Qed.

(** C1.  For [<blockquote>a\nb</blockquote>] the data event appends the
    one fragment ["> a b\n"], where a fragment ["> a\n"] and a fragment
    ["> b\n"] were due: the branch of the block quote splits the text at
    the newlines and has a loop over the lines, and the text reaches it
    with the newlines already replaced by spaces.  Neither ["> a\n"] nor
    ["> b\n"] is appended or occurs in the output. *)
Lemma quote_newline_counterexample :
  exists st,
    feed quote_doc init = Ok st /\
    content st = [py "> a b" ++ [Py.nl]; [Py.nl]] /\
    ~ In (py "> a" ++ [Py.nl]) (content st) /\
    ~ In (py "> b" ++ [Py.nl]) (content st) /\
    Py.contains (py "> a" ++ [Py.nl]) (get_content st) = false /\
    Py.contains (py "> b" ++ [Py.nl]) (get_content st) = false.
Proof.
  eexists. split; [reflexivity|]. split; [reflexivity|].
  repeat split; try reflexivity;
    simpl; intros [H|[H|[]]]; discriminate.
Qed.

(** The loop over the lines of a quoted text never sees a second line: a
    non-empty data event in a block quote (outside a heading and a bold)
    appends one fragment, ["> "] followed by the cleaned text and a
    newline, and the cleaned text holds no newline, the newlines of the
    data having become spaces before the split. *)
Theorem quote_single_fragment :
  (forall data st,
      Py.strip data <> [] ->
      quote_context st = true ->
      handle_data data st = append (py "> " ++ clean data ++ [Py.nl]) st /\
      ~ In Py.nl (clean data)) /\
  parse_html quote_doc = Ok (py "> a b" ++ [Py.nl; Py.nl]).
Proof.
  split; [|reflexivity].
  intros data st Hne Hq.
  destruct (clean_shape data Hne) as (Hc & Hnl & Hs).
  split; [|exact Hnl].
  rewrite (handle_data_nonempty data st Hne).
  unfold quote_context in Hq.
  apply andb_prop in Hq as [Hq Hb]. apply andb_prop in Hq as [Hq Hs'].
  apply andb_prop in Hq as [Hh H3].
  apply negb_true_iff in Hh, H3, Hs'.
  rewrite Hh, H3, Hs', Hb.
  rewrite (split_no_sep _ _ Hnl). simpl fold_left.
  unfold quote_line. rewrite Hs.
  destruct (clean data); [congruence | reflexivity].
Qed.

Lemma quote_single_fragment_witness :
  Py.strip (py "a" ++ [Py.nl] ++ py "b") <> [] /\
  handle_data (py "a" ++ [Py.nl] ++ py "b")
    (set_in_blockquote true (set_current_tag (Some (py "blockquote")) init)) =
  append (py "> " ++ clean (py "a" ++ [Py.nl] ++ py "b") ++ [Py.nl])
    (set_in_blockquote true (set_current_tag (Some (py "blockquote")) init)).
Proof.
  split; [discriminate|].
  apply (proj1 quote_single_fragment); [discriminate | reflexivity].
Defined.

(** * Further properties of the callbacks *)

Lemma eqb_eq s t : Py.eqb s t = true <-> s = t.
Proof.
  revert t. induction s as [|a s IH]; intros [|b t]; simpl;
    split; intros H; try reflexivity; try discriminate.
  - apply andb_prop in H as [H1 H2].
    apply N.eqb_eq in H1. apply IH in H2. congruence.
  - inversion H; subst. rewrite N.eqb_refl. simpl. now apply IH.
Qed.

(** Case analysis on a tag name along the tests of a callback. *)
Ltac by_tag tag :=
  repeat match goal with
         | |- context [Py.eqb tag ?l] =>
             let E := fresh "E" in
             destruct (Py.eqb tag l) eqn:E;
             [apply eqb_eq in E; subst tag |]
         end.

(** [sub in s] holds exactly of the texts that have [sub] somewhere in
    them. *)
Lemma startswith_iff p s :
  Py.startswith p s = true <-> exists post, s = p ++ post.
Proof.
  revert s. induction p as [|a p IH]; intros s; simpl.
  - split; [intros _; now exists s | reflexivity].
  - destruct s as [|b s]; [split; [discriminate | intros [post H]; discriminate]|].
    rewrite andb_true_iff, N.eqb_eq, IH. split.
    + intros [-> [post ->]]. now exists post.
    + intros [post H]. inversion H; subst. eauto.
Qed.

Lemma contains_iff sub s :
  Py.contains sub s = true <-> exists pre post, s = pre ++ sub ++ post.
Proof.
  induction s as [|c s IH].
  - simpl. rewrite orb_false_r, startswith_iff. split.
    + intros [post H]. now exists [], post.
    + intros (pre & post & H). destruct pre; [now exists post|discriminate].
  - cbn [Py.contains]. rewrite orb_true_iff, startswith_iff, IH. split.
    + intros [[post H]|(pre & post & H)].
      * now exists [], post.
      * exists (c :: pre), post. simpl. now rewrite H.
    + intros (pre & post & H). destruct pre as [|d pre].
      * left. now exists post.
      * right. inversion H; subst. now exists pre, post.
Qed.

(** ** What each callback appends *)

Lemma handle_starttag_content tag a st st' :
  handle_starttag tag a st = Ok st' ->
  exists frags,
    content st' = content st ++ frags /\
    (length frags <= 1)%nat /\
    (Py.eqb tag (py "li") = false -> frags = []).
Proof.
  unfold handle_starttag. fold (style_of a). by_tag tag.
  all: try solve [intros H; inversion H; subst; exists []; simpl;
                  rewrite app_nil_r; repeat split; auto].
  - destruct (style_of a) as [style|]; simpl; [|discriminate].
    intros H. inversion H; subst. eexists [_]. simpl.
    repeat split; [lia | discriminate].
  - destruct (style_of a) as [style|]; simpl; [|discriminate].
    destruct (Py.contains (py "font-size:0.8em") style); simpl;
      [|destruct (Py.contains (py "opacity:0.8") style)];
      intros H; inversion H; subst; exists []; simpl;
      rewrite app_nil_r; repeat split; auto.
Qed.

Lemma handle_endtag_content tag st :
  exists frags,
    content (handle_endtag tag st) = content st ++ frags /\
    (length frags <= 1)%nat /\
    Forall (Forall (eq Py.nl)) frags.
Proof.
  assert (Hnl : forall l, Forall (eq Py.nl) l -> Forall (Forall (eq Py.nl)) [l])
    by (intros l Hl; constructor; [exact Hl | constructor]).
  unfold handle_endtag. by_tag tag; simpl.
  all: repeat match goal with
              | |- context [if ?b then _ else _] => destruct b
              end; simpl.
  all: first
         [ exists []; rewrite app_nil_r; repeat split; auto; constructor
         | eexists [_]; repeat split; auto; apply Hnl; repeat constructor ].
Qed.

(** X1.  The buffer is append-only over a whole run: what [content] held
    before the callbacks is a prefix of what it holds after them, and so
    is the text [get_content] returns. *)
Theorem feed_append_only evs :
  forall st st',
    feed evs st = Ok st' ->
    exists frags,
      content st' = content st ++ frags /\
      get_content st' = get_content st ++ Py.join frags.
Proof.
  assert (Hj : forall st st' frags,
             content st' = content st ++ frags ->
             get_content st' = get_content st ++ Py.join frags).
  { intros st st' frags E. unfold get_content, Py.join.
    rewrite E. apply concat_app. }
  induction evs as [|e evs IH]; simpl; intros st st' E.
  - inversion E; subst. exists []. rewrite app_nil_r.
    split; [reflexivity|]. unfold Py.join. simpl. now rewrite app_nil_r.
  - assert (Hstep : exists st1 f1,
               handle st e = Ok st1 /\ content st1 = content st ++ f1).
    { destruct e as [tag a | tag | data]; simpl in *.
      - destruct (handle_starttag tag a st) as [st1|] eqn:E1;
          [|discriminate].
        destruct (handle_starttag_content tag a st st1 E1) as (f & Hf & _).
        eauto.
      - destruct (handle_endtag_content tag st) as (f & Hf & _). eauto.
      - destruct (handle_data_appends data st) as (f & Hf).
        exists (handle_data data st), f.
        split; [reflexivity | rewrite Hf; reflexivity]. }
    destruct Hstep as (st1 & f1 & E1 & Hf1).
    rewrite E1 in E. simpl in E.
    destruct (IH st1 st' E) as (f2 & Hf2 & _).
    assert (Hc : content st' = content st ++ (f1 ++ f2))
      by (rewrite Hf2, Hf1, app_assoc; reflexivity).
    exists (f1 ++ f2). split; [exact Hc | now apply Hj].
Qed.

Lemma feed_append_only_witness :
  feed small_doc init = Ok (append (py " *(note)*") (append (py "see") init)) /\
  exists frags,
    content (append (py " *(note)*") (append (py "see") init)) =
      content init ++ frags /\
    get_content (append (py " *(note)*") (append (py "see") init)) =
      get_content init ++ Py.join frags.
Proof.
  split; [reflexivity|].
  apply (feed_append_only small_doc init). reflexivity.
Defined.

(** X2.  However the tags are nested or left unmatched, a run that starts
    with a fresh parser never takes [small_text_level] below zero. *)
Theorem small_text_level_never_negative evs st :
  feed evs init = Ok st -> 0 <= small_text_level st.
Proof.
  intros E. eapply small_text_level_nonneg; [exact E|]. simpl. lia.
Qed.

Lemma small_text_level_never_negative_witness :
  0 <= small_text_level
         (handle_endtag (py "span") (handle_endtag (py "span") init)).
Proof.
  apply (small_text_level_never_negative
           [EndTag (py "span"); EndTag (py "span")]).
  reflexivity.
Defined.

(** ** The list depth *)

Lemma handle_list_level e st st' :
  handle st e = Ok st' -> list_level st' = list_level st + ul_delta e.
Proof.
  destruct e as [tag a | tag | data]; simpl.
  - unfold handle_starttag. fold (style_of a). by_tag tag.
    all: try (intros H; inversion H; subst; simpl; lia).
    + destruct (style_of a); simpl; [|discriminate].
      intros H; inversion H; subst; simpl; lia.
    + destruct (style_of a) as [style|]; simpl; [|discriminate].
      destruct (Py.contains (py "font-size:0.8em") style); simpl;
        [|destruct (Py.contains (py "opacity:0.8") style)];
        intros H; inversion H; subst; simpl; lia.
  - intros H; inversion H; subst. unfold handle_endtag. by_tag tag; simpl.
    all: repeat match goal with
                | |- context [if ?b then _ else _] => destruct b
                end; simpl; lia.
  - intros H; inversion H; subst.
    destruct (handle_data_appends data st) as [f Hf]. rewrite Hf. simpl. lia.
Qed.

(** X3.  After a run, [list_level] is where it started plus the number of
    [ul] start tags minus the number of [ul] end tags met: no other
    callback touches it, and nothing keeps it from going negative. *)
Theorem list_level_accounting evs :
  forall st st',
    feed evs st = Ok st' ->
    list_level st' = list_level st + ul_balance evs.
Proof.
  induction evs as [|e evs IH]; simpl; intros st st' E.
  - inversion E; subst. unfold ul_balance. simpl. lia.
  - destruct (handle st e) as [st1|] eqn:E1; simpl in E; [|discriminate].
    rewrite (IH st1 st' E), (handle_list_level e st st1 E1).
    unfold ul_balance. simpl. lia.
Qed.

Lemma list_level_accounting_witness :
  list_level (handle_endtag (py "ul") (handle_endtag (py "ul") init)) =
    list_level init + ul_balance [EndTag (py "ul"); EndTag (py "ul")].
Proof.
  apply (list_level_accounting [EndTag (py "ul"); EndTag (py "ul")] init).
  reflexivity.
Defined.

(** ** When a run raises *)

Lemma handle_starttag_raises tag a st :
  handle_starttag tag a st = Raise TypeError <->
  bare_style (StartTag tag a) = true.
Proof.
  unfold handle_starttag, bare_style. fold (style_of a). by_tag tag; simpl.
  all: try (split; discriminate).
  - destruct (style_of a); simpl; split; congruence.
  - destruct (style_of a) as [style|]; simpl; [|split; congruence].
    destruct (Py.contains (py "font-size:0.8em") style); simpl;
      [|destruct (Py.contains (py "opacity:0.8") style)];
      split; discriminate.
Qed.

(** X4.  A run raises, and then it is [TypeError], exactly when one of its
    start tags is a [li] or a [span] whose [style] attribute has no value;
    every other document is rendered. *)
Theorem feed_raises_iff evs :
  forall st,
    (feed evs st = Raise TypeError <-> existsb bare_style evs = true) /\
    (existsb bare_style evs = false -> exists st', feed evs st = Ok st').
Proof.
  induction evs as [|e evs IH]; intros st; simpl.
  - split; [split; discriminate | eauto].
  - destruct (bare_style e) eqn:Eb.
    + destruct e as [tag a | tag | data]; try discriminate. simpl.
      rewrite (proj2 (handle_starttag_raises tag a st) Eb). simpl.
      split; [tauto | discriminate].
    + assert (Hok : exists st1, handle st e = Ok st1).
      { destruct e as [tag a | tag | data]; simpl; eauto.
        destruct (handle_starttag tag a st) as [st1|[]] eqn:E1; eauto.
        apply (handle_starttag_raises tag a st) in E1. congruence. }
      destruct Hok as [st1 E1]. rewrite E1. simpl. apply IH.
Qed.

Lemma feed_raises_iff_witness :
  existsb bare_style h1_doc = false /\ exists st', feed h1_doc init = Ok st'.
Proof.
  split; [reflexivity|].
  apply (proj2 (feed_raises_iff h1_doc init)). reflexivity.
Defined.

(** ** List items *)

(** X5.  A list item whose [style] is absent or has a value appends one
    fragment, spaces followed by the bullet: [2 * (list_level - 1)] spaces
    inside a list, none at depth one or outside every list; the bullet is
    ["  - "] when the style holds [circle] and ["- "] otherwise.  The tag
    becomes the current one and nothing else changes. *)
Theorem li_prefix a st style :
  style_of a = Some style ->
  exists indent,
    handle_starttag (py "li") a st =
      Ok (append (indent ++ (if Py.contains (py "circle") style
                             then py "  - " else py "- "))
            (set_current_tag (Some (py "li")) st)) /\
    Forall (eq Py.sp) indent /\
    Z.of_nat (length indent) = Z.max 0 (2 * (list_level st - 1)).
Proof.
  intros Hs. exists (repeat Py.sp (2 * Z.to_nat (list_level st - 1))).
  split; [|split].
  - rewrite handle_starttag_li, Hs. simpl.
    rewrite mul_two_spaces. reflexivity.
  - apply Forall_forall. intros x Hx. symmetry. eapply repeat_spec; eauto.
  - rewrite repeat_length. lia.
Qed.

Lemma li_prefix_witness :
  exists indent,
    handle_starttag (py "li") [(py "style", Some (py "list-style:circle"))]
      (set_list_level 2 init) =
      Ok (append (indent ++ (if Py.contains (py "circle")
                                  (py "list-style:circle")
                             then py "  - " else py "- "))
            (set_current_tag (Some (py "li")) (set_list_level 2 init))) /\
    Forall (eq Py.sp) indent /\
    Z.of_nat (length indent) = Z.max 0 (2 * (list_level (set_list_level 2 init) - 1)).
Proof.
  apply (li_prefix [(py "style", Some (py "list-style:circle"))]
           (set_list_level 2 init) (py "list-style:circle")).
  reflexivity.
Defined.

(** ** What the tags emit *)

(** X6.  Of the start tags only [li] writes to the buffer: after any other
    start tag [content] is what it was. *)
Theorem start_tag_emits_only_li tag a st st' :
  handle_starttag tag a st = Ok st' ->
  tag <> py "li" ->
  content st' = content st.
Proof.
  intros E Hli.
  destruct (handle_starttag_content tag a st st' E) as (frags & Hc & _ & Hn).
  rewrite Hc, Hn, app_nil_r; [reflexivity|].
  destruct (Py.eqb tag (py "li")) eqn:Eq; [|reflexivity].
  apply eqb_eq in Eq. contradiction.
Qed.

Lemma start_tag_emits_only_li_witness :
  content (set_small_text_level 1 (set_current_tag (Some (py "span")) init)) =
    content init.
Proof.
  apply (start_tag_emits_only_li (py "span")
           [(py "style", Some (py "opacity:0.8"))] init);
    [reflexivity | discriminate].
Defined.

(** X7.  An end tag adds nothing but newlines to the output, two at most,
    whatever the tag and the state. *)
Theorem end_tag_emits_newlines tag st :
  exists n,
    (n <= 2)%nat /\
    get_content (handle_endtag tag st) = get_content st ++ repeat Py.nl n.
Proof.
  assert (H0 : get_content st = get_content st ++ repeat Py.nl 0)
    by (simpl; now rewrite app_nil_r).
  assert (Ha : forall l st0, content st0 = content st ->
                 get_content (append l st0) = get_content st ++ l).
  { intros l st0 E. unfold get_content, Py.join, append. simpl.
    rewrite E, concat_app. simpl. now rewrite app_nil_r. }
  unfold handle_endtag. by_tag tag; simpl.
  all: repeat match goal with
              | |- context [if ?b then _ else _] => destruct b
              end.
  all: first
         [ exists 0%nat; split; [lia | exact H0]
         | exists 1%nat; split; [lia | apply (Ha [Py.nl]); reflexivity]
         | exists 2%nat; split;
           [lia | apply (Ha [Py.nl; Py.nl]); reflexivity] ].
Qed.

(** ** Data events *)

Lemma dropwhile_nil_iff p s :
  Py.dropwhile p s = [] <-> forallb p s = true.
Proof.
  induction s as [|c s IH]; simpl; [tauto|].
  destruct (p c); simpl; [exact IH | split; discriminate].
Qed.

Lemma forallb_rev p (s : Py.str) : forallb p (rev s) = forallb p s.
Proof.
  induction s as [|c s IH]; simpl; [reflexivity|].
  rewrite forallb_app, IH. simpl. rewrite andb_true_r. apply andb_comm.
Qed.

(** [strip] leaves nothing exactly of the texts that are white space
    throughout. *)
Lemma strip_nil_iff s :
  Py.strip s = [] <-> forallb Py.isspace s = true.
Proof.
  unfold Py.strip, Py.rstrip, Py.lstrip. split.
  - intros H. apply (f_equal (@rev _)) in H. rewrite rev_involutive in H.
    simpl in H. apply dropwhile_nil_iff in H. rewrite forallb_rev in H.
    apply dropwhile_nil_iff.
    destruct (Py.dropwhile Py.isspace s) as [|c t] eqn:E; [reflexivity|].
    apply dropwhile_head in E. simpl in H. rewrite E in H. discriminate.
  - intros H. apply dropwhile_nil_iff in H. rewrite H. reflexivity.
Qed.

Lemma handle_data_one_fragment data st :
  Py.strip data <> [] ->
  exists pre post,
    handle_data data st = append (pre ++ clean data ++ post) st.
Proof.
  intros Hne. destruct (clean_shape data Hne) as (Hc & Hnl & Hs).
  rewrite (handle_data_nonempty data st Hne).
  destruct (in_header st && tag_is (py "h1") (current_tag st)).
  { exists (py "## "), []. now rewrite app_nil_r. }
  destruct (tag_is (py "h3") (current_tag st)).
  { exists (py "### "), []. now rewrite app_nil_r. }
  destruct (in_strong st).
  { exists (py "**"), (py "**"). reflexivity. }
  destruct (in_blockquote st).
  { exists (py "> "), [Py.nl].
    rewrite (split_no_sep _ _ Hnl). simpl fold_left.
    unfold quote_line. rewrite Hs.
    destruct (clean data); [congruence | reflexivity]. }
  destruct (0 <? small_text_level st).
  { exists (py " *("), (py ")*"). reflexivity. }
  exists [], []. rewrite app_nil_r. simpl.
  destruct (clean data); [congruence | reflexivity].
Qed.

(** X8.  A data event that holds more than white space appends exactly one
    fragment, the cleaned text between a prefix and a suffix (both may be
    empty), and the cleaned text is not empty. *)
Theorem data_appends_one_fragment data st :
  Py.strip data <> [] ->
  clean data <> [] /\
  exists pre post,
    handle_data data st = append (pre ++ clean data ++ post) st.
Proof.
  intros Hne. split.
  - apply (clean_shape data Hne).
  - apply handle_data_one_fragment, Hne.
Qed.

Lemma data_appends_one_fragment_witness :
  clean (py " a  b ") <> [] /\
  exists pre post,
    handle_data (py " a  b ") init =
      append (pre ++ clean (py " a  b ") ++ post) init.
Proof.
  apply (data_appends_one_fragment (py " a  b ") init). discriminate.
Defined.

(** X9.  A data event leaves the parser as it was exactly when its text
    is white space throughout (the empty text included): the line breaks
    and indentation between tags leave no trace. *)
Theorem data_noop_iff_blank data st :
  handle_data data st = st <-> forallb Py.isspace data = true.
Proof.
  split.
  - intros H. apply strip_nil_iff.
    destruct (Py.strip data) as [|c t] eqn:E; [reflexivity|].
    assert (Hne : Py.strip data <> []) by (rewrite E; discriminate).
    destruct (handle_data_one_fragment data st Hne) as (pre & post & Hd).
    rewrite Hd in H. apply (f_equal content) in H.
    apply (f_equal (@length _)) in H. simpl in H.
    rewrite length_app in H. simpl in H. lia.
  - intros H. apply handle_data_blank, strip_nil_iff, H.
Qed.

Lemma data_noop_iff_blank_witness :
  handle_data ([Py.nl] ++ py "   " ++ [160%N]) init = init.
Proof.
  apply (proj2 (data_noop_iff_blank ([Py.nl] ++ py "   " ++ [160%N]) init)).
  reflexivity.
Defined.

(** ** The cleaned text *)

Lemma sub_ws_cons c s :
  Py.re_sub Py.isspace 1 [Py.sp] (c :: s) =
    if Py.isspace c
    then Py.sp :: Py.re_sub Py.isspace 1 [Py.sp] (Py.dropwhile Py.isspace s)
    else c :: Py.re_sub Py.isspace 1 [Py.sp] s.
Proof.
  rewrite re_sub_cons.
  replace (1 <=? S (Py.run Py.isspace s))%nat with true by reflexivity.
  rewrite andb_true_r. reflexivity.
Qed.

Lemma run_zero_dropwhile p s :
  Py.run p s = 0%nat -> Py.dropwhile p s = s.
Proof.
  destruct s as [|c s]; simpl; [reflexivity|].
  destruct (p c); [discriminate | reflexivity].
Qed.

Lemma sub_ws_run_zero s :
  Py.run Py.isspace s = 0%nat ->
  Py.run Py.isspace (Py.re_sub Py.isspace 1 [Py.sp] s) = 0%nat.
Proof.
  destruct s as [|c s]; [reflexivity|].
  rewrite sub_ws_cons. simpl.
  destruct (Py.isspace c) eqn:E; [discriminate|].
  intros _. simpl. now rewrite E.
Qed.

Lemma sub_ws_idempotent s :
  Py.re_sub Py.isspace 1 [Py.sp] (Py.re_sub Py.isspace 1 [Py.sp] s) =
    Py.re_sub Py.isspace 1 [Py.sp] s.
Proof.
  induction s as [s IH] using (induction_ltof1 _ (@length Py.char)).
  unfold ltof in IH. destruct s as [|c s]; [reflexivity|].
  rewrite sub_ws_cons. destruct (Py.isspace c) eqn:E.
  - rewrite sub_ws_cons. simpl (Py.isspace Py.sp). cbv iota.
    rewrite run_zero_dropwhile
      by (apply sub_ws_run_zero, run_dropwhile).
    rewrite IH; [reflexivity|].
    pose proof (length_dropwhile Py.isspace s). simpl. lia.
  - rewrite sub_ws_cons, E, IH; [reflexivity | simpl; lia].
Qed.

Lemma sub_ws_no_double s :
  Py.contains double_sp (Py.re_sub Py.isspace 1 [Py.sp] s) = false.
Proof.
  induction s as [s IH] using (induction_ltof1 _ (@length Py.char)).
  unfold ltof in IH. destruct s as [|c s]; [reflexivity|].
  rewrite sub_ws_cons. destruct (Py.isspace c) eqn:E.
  - assert (Hr : Py.run Py.isspace
                   (Py.re_sub Py.isspace 1 [Py.sp]
                      (Py.dropwhile Py.isspace s)) = 0%nat)
      by apply sub_ws_run_zero, run_dropwhile.
    assert (Hi : Py.contains double_sp
                   (Py.re_sub Py.isspace 1 [Py.sp]
                      (Py.dropwhile Py.isspace s)) = false).
    { apply IH. pose proof (length_dropwhile Py.isspace s). simpl. lia. }
    destruct (Py.re_sub Py.isspace 1 [Py.sp] (Py.dropwhile Py.isspace s))
      as [|d t] eqn:Et; [reflexivity|].
    simpl in Hr. destruct (Py.isspace d) eqn:Ed; [discriminate|].
    change (Py.contains double_sp (Py.sp :: d :: t))
      with ((N.eqb Py.sp Py.sp && (N.eqb Py.sp d && true))
            || Py.contains double_sp (d :: t)).
    rewrite Hi. destruct (N.eqb_spec Py.sp d) as [Hd|Hd]; [|reflexivity].
    subst d. discriminate.
  - change (Py.contains double_sp
              (c :: Py.re_sub Py.isspace 1 [Py.sp] s))
      with (Py.startswith double_sp
              (c :: Py.re_sub Py.isspace 1 [Py.sp] s)
            || Py.contains double_sp (Py.re_sub Py.isspace 1 [Py.sp] s)).
    rewrite IH by (simpl; lia). rewrite orb_false_r.
    destruct (N.eqb_spec Py.sp c) as [Hc|Hc]; [subst c; discriminate|].
    apply N.eqb_neq in Hc. unfold double_sp. cbn [Py.startswith].
    rewrite Hc. reflexivity.
Qed.

Lemma replace_absent a b s : ~ In a s -> Py.replace a b s = s.
Proof.
  induction s as [|c s IH]; simpl; intros H; [reflexivity|].
  destruct (N.eqb_spec c a) as [E|E]; [subst; tauto|].
  f_equal. apply IH. tauto.
Qed.

Lemma clean_blank data : Py.strip data = [] -> clean data = [].
Proof. intros E. unfold clean. rewrite E. reflexivity. Qed.

(** X10.  Cleaning a text a second time changes nothing. *)
Theorem clean_idempotent data : clean (clean data) = clean data.
Proof.
  destruct (Py.strip data) as [|c t] eqn:E.
  - rewrite (clean_blank data E). reflexivity.
  - assert (Hne : Py.strip data <> []) by (rewrite E; discriminate).
    destruct (clean_shape data Hne) as (_ & Hnl & Hs).
    unfold clean at 1. rewrite Hs, (replace_absent _ _ _ Hnl).
    unfold clean. apply sub_ws_idempotent.
Qed.

(** X11.  In the cleaned text the only white space is the single space
    U+0020, never two in a row, and never at either end: [strip] leaves
    the cleaned text as it is. *)
Theorem clean_single_spaces data :
  Forall (fun c => Py.isspace c = false \/ c = Py.sp) (clean data) /\
  Py.contains double_sp (clean data) = false /\
  Py.strip (clean data) = clean data.
Proof.
  split; [|split].
  - pose proof (re_sub_one_chars Py.isspace [Py.sp]
                  (Py.replace Py.nl Py.sp (Py.strip data))) as HF.
    unfold clean. eapply Forall_impl; [|exact HF].
    intros c [H|[H|[]]]; [now left | now right].
  - apply sub_ws_no_double.
  - destruct (Py.strip data) as [|c t] eqn:E.
    + rewrite (clean_blank data E). reflexivity.
    + apply clean_shape. rewrite E. discriminate.
Qed.

(** ** The blank-line clean-up, continued *)

Lemma startswith_triple s :
  Py.startswith triple_nl s = (3 <=? Py.run Py.is_nl s)%nat.
Proof.
  unfold triple_nl, Py.is_nl.
  destruct s as [|a [|b [|c s]]]; cbn [Py.startswith Py.run];
    try rewrite !(N.eqb_sym Py.nl);
    repeat match goal with
           | |- context [N.eqb ?x Py.nl] => destruct (N.eqb x Py.nl)
           end; reflexivity.
Qed.

Lemma contains_triple_cons c t :
  Py.contains triple_nl (c :: t) =
    (3 <=? Py.run Py.is_nl (c :: t))%nat || Py.contains triple_nl t.
Proof. rewrite <- startswith_triple. reflexivity. Qed.

Lemma run_nl_cons t :
  Py.run Py.is_nl (Py.nl :: t) = S (Py.run Py.is_nl t).
Proof. reflexivity. Qed.

(** X12.  After the clean-up no three newlines follow one another. *)
Theorem collapse_no_triple s :
  Py.contains triple_nl (collapse_newlines s) = false.
Proof.
  induction s as [s IH] using (induction_ltof1 _ (@length Py.char)).
  unfold ltof in IH. destruct s as [|c s]; [reflexivity|].
  unfold collapse_newlines. rewrite re_sub_cons.
  fold (collapse_newlines s). fold (collapse_newlines (Py.dropwhile Py.is_nl s)).
  destruct (Py.is_nl c && (3 <=? S (Py.run Py.is_nl s))%nat) eqn:E.
  - assert (Hr : Py.run Py.is_nl (collapse_newlines (Py.dropwhile Py.is_nl s)) = 0%nat)
      by (rewrite run_collapse, run_dropwhile; reflexivity).
    assert (Hi : Py.contains triple_nl
                   (collapse_newlines (Py.dropwhile Py.is_nl s)) = false).
    { apply IH. pose proof (length_dropwhile Py.is_nl s). simpl. lia. }
    change ([Py.nl; Py.nl] ++ collapse_newlines (Py.dropwhile Py.is_nl s))
      with (Py.nl :: Py.nl :: collapse_newlines (Py.dropwhile Py.is_nl s)).
    rewrite !contains_triple_cons, !run_nl_cons, Hr, Hi. reflexivity.
  - rewrite contains_triple_cons, IH by (simpl; lia). rewrite orb_false_r.
    cbn [Py.run]. destruct (Py.is_nl c); [|reflexivity].
    rewrite run_collapse. cbn [andb] in E.
    destruct (Py.run Py.is_nl s) as [|[|n]]; simpl in *; congruence.
Qed.

(** X13.  A text in which no three newlines follow one another comes out
    of the clean-up unchanged. *)
Theorem collapse_fixes_normal s :
  Py.contains triple_nl s = false -> collapse_newlines s = s.
Proof.
  induction s as [|c s IH]; [reflexivity|].
  intros H.
  change (Py.contains triple_nl (c :: s))
    with (Py.startswith triple_nl (c :: s) || Py.contains triple_nl s) in H.
  apply orb_false_elim in H as [H1 H2].
  rewrite startswith_triple in H1.
  unfold collapse_newlines. rewrite re_sub_cons.
  fold (collapse_newlines s).
  replace (Py.is_nl c && (3 <=? S (Py.run Py.is_nl s))%nat) with false.
  - rewrite IH by exact H2. reflexivity.
  - cbn [Py.run] in H1. destruct (Py.is_nl c); [|reflexivity].
    cbn [andb]. now rewrite H1.
Qed.

Lemma collapse_fixes_normal_witness :
  collapse_newlines (py "a" ++ [Py.nl; Py.nl] ++ py "b") =
    py "a" ++ [Py.nl; Py.nl] ++ py "b".
Proof.
  apply (collapse_fixes_normal (py "a" ++ [Py.nl; Py.nl] ++ py "b")).
  reflexivity.
Defined.

Lemma filter_dropwhile_nl s :
  filter not_nl (Py.dropwhile Py.is_nl s) = filter not_nl s.
Proof.
  induction s as [|c s IH]; simpl; [reflexivity|].
  unfold not_nl at 2. destruct (Py.is_nl c) eqn:E; simpl; [exact IH|].
  unfold not_nl at 1. rewrite E. reflexivity.
Qed.

(** X14.  The clean-up removes newlines and nothing else: the characters
    other than newline are the same, in the same order, and the text does
    not get longer. *)
Theorem collapse_keeps_text s :
  filter not_nl (collapse_newlines s) = filter not_nl s /\
  (length (collapse_newlines s) <= length s)%nat.
Proof.
  induction s as [s IH] using (induction_ltof1 _ (@length Py.char)).
  unfold ltof in IH.
  destruct s as [|c s]; [split; [reflexivity | vm_compute; lia]|].
  unfold collapse_newlines. rewrite re_sub_cons.
  fold (collapse_newlines s). fold (collapse_newlines (Py.dropwhile Py.is_nl s)).
  pose proof (length_dropwhile Py.is_nl s) as Hl.
  assert (Hd : (length (Py.dropwhile Py.is_nl s) + Py.run Py.is_nl s
                = length s)%nat).
  { clear. induction s as [|a s IHs]; simpl; [reflexivity|].
    destruct (Py.is_nl a); simpl; lia. }
  assert (Hcons : forall t, filter not_nl (c :: t) =
                    if Py.is_nl c then filter not_nl t
                    else c :: filter not_nl t).
  { intros t. cbn [filter]. unfold not_nl at 1.
    destruct (Py.is_nl c); reflexivity. }
  destruct (Py.is_nl c) eqn:Ec; cbn [andb].
  - destruct (3 <=? S (Py.run Py.is_nl s))%nat eqn:E3.
    + destruct (IH (Py.dropwhile Py.is_nl s)) as [Hf Hn]; [simpl; lia|].
      split.
      * change (filter not_nl
                  ([Py.nl; Py.nl] ++
                   collapse_newlines (Py.dropwhile Py.is_nl s)))
          with (filter not_nl (collapse_newlines (Py.dropwhile Py.is_nl s))).
        rewrite Hf, filter_dropwhile_nl, Hcons. reflexivity.
      * rewrite length_app. apply Nat.leb_le in E3.
        cbn [length] in *. lia.
    + destruct (IH s) as [Hf Hn]; [simpl; lia|].
      split; [|cbn [length]; lia].
      rewrite !Hcons. exact Hf.
  - destruct (IH s) as [Hf Hn]; [simpl; lia|].
    split; [|cbn [length]; lia].
    rewrite !Hcons, Hf. reflexivity.
Qed.

(** ** The written document *)

Lemma combine_none files acc :
  Forall (eq None) files -> combine acc files = acc.
Proof.
  intros H. rewrite combine_app.
  induction H as [|f files Hf _ IH]; simpl; [apply app_nil_r|].
  subst f. exact IH.
Qed.

(** X15.  When none of the input files exists, the written document is the
    three opening lines and nothing more. *)
Theorem final_content_no_files files :
  Forall (eq None) files ->
  final_content files = title_line ++ intro_line ++ rule_line.
Proof.
  intros H. unfold final_content. rewrite (combine_none files preamble H).
  vm_compute. reflexivity.
Qed.

Lemma final_content_no_files_witness :
  final_content (repeat None 8) = title_line ++ intro_line ++ rule_line.
Proof.
  apply (final_content_no_files (repeat None 8)).
  repeat constructor.
Defined.

(** X16.  Whatever the files hold, the written document begins with the
    title line, the introductory quote line and the rule [---]: the
    clean-up of newlines does not reach into them. *)
Theorem final_content_head files :
  exists rest, final_content files = preamble_head ++ rest.
Proof.
  set (X := Py.join (flat_map (fun f => match f with
                                        | Some c => [c; separator]
                                        | None => []
                                        end) files)).
  assert (Hh : preamble_head = removelast preamble_head ++ [45%N])
    by (vm_compute; reflexivity).
  assert (Hp : collapse_newlines (removelast preamble_head) =
               removelast preamble_head)
    by (vm_compute; reflexivity).
  assert (Hj : Py.join (combine preamble files) =
               removelast preamble_head ++ 45%N :: ([Py.nl; Py.nl] ++ X)).
  { rewrite combine_app. unfold Py.join, X. rewrite concat_app.
    reflexivity. }
  exists (collapse_newlines ([Py.nl; Py.nl] ++ X)).
  unfold final_content. rewrite Hj. unfold collapse_newlines at 1.
  rewrite re_sub_app_stop by reflexivity.
  fold (collapse_newlines (removelast preamble_head)).
  fold (collapse_newlines ([Py.nl; Py.nl] ++ X)).
  rewrite Hp. set (P0 := removelast preamble_head) in *.
  rewrite Hh, <- app_assoc. reflexivity.
Qed.

(** ** Elements around a text *)

Lemma handle_data_quote data st :
  Py.strip data <> [] ->
  quote_context st = true ->
  handle_data data st = append (py "> " ++ clean data ++ [Py.nl]) st.
Proof.
  intros Hne Hq. destruct (clean_shape data Hne) as (Hc & Hnl & Hs).
  rewrite (handle_data_nonempty data st Hne).
  unfold quote_context in Hq.
  apply andb_prop in Hq as [Hq Hb]. apply andb_prop in Hq as [Hq Hs'].
  apply andb_prop in Hq as [Hh H3].
  apply negb_true_iff in Hh, H3, Hs'.
  rewrite Hh, H3, Hs', Hb, (split_no_sep _ _ Hnl). simpl fold_left.
  unfold quote_line. rewrite Hs.
  destruct (clean data); [congruence | reflexivity].
Qed.

(** X17.  Callbacks composed around one data event with a text [x] that
    is not blank, whatever the attributes of the outer start tag: start
    [strong], the data, end [strong] give the cleaned text between [**]
    and [**]; start [p], the data, end [p] give the cleaned text and a
    newline; start [blockquote], start [p], the data, end [p], end
    [blockquote] give ["> "], the cleaned text and two newlines (the end
    of the paragraph adds none); start [ul], start [li], the data, end
    [li], end [ul] give ["- "], the cleaned text and two newlines. *)
Theorem element_rendering a x :
  Py.strip x <> [] ->
  parse_html (strong_doc a x) = Ok (py "**" ++ clean x ++ py "**") /\
  parse_html (para_doc a x) = Ok (clean x ++ [Py.nl]) /\
  parse_html (quote_para_doc a x) =
    Ok (py "> " ++ clean x ++ [Py.nl; Py.nl]) /\
  parse_html (list_doc a x) = Ok (py "- " ++ clean x ++ [Py.nl; Py.nl]).
Proof.
  intros Hne. destruct (clean_shape x Hne) as (Hc & _).
  unfold parse_html, strong_doc, para_doc, quote_para_doc, list_doc.
  cbn [feed handle bind].
  repeat split.
  - change (handle_starttag (py "strong") a init)
      with (Ok (set_in_strong true (set_current_tag (Some (py "strong")) init))).
    cbn [bind]. rewrite (handle_data_nonempty x _ Hne).
    unfold handle_endtag, get_content, Py.join. simpl.
    rewrite app_nil_r. reflexivity.
  - change (handle_starttag (py "p") a init)
      with (Ok (set_current_tag (Some (py "p")) init)).
    cbn [bind]. rewrite (handle_data_nonempty x _ Hne).
    unfold handle_endtag, get_content, Py.join. simpl.
    destruct (clean x); [congruence | reflexivity].
  - change (handle_starttag (py "blockquote") a init)
      with (Ok (set_in_blockquote true
                  (set_current_tag (Some (py "blockquote")) init))).
    cbn [bind].
    change (handle_starttag (py "p") []
              (set_in_blockquote true
                 (set_current_tag (Some (py "blockquote")) init)))
      with (Ok (set_in_blockquote true
                  (set_current_tag (Some (py "p")) init))).
    cbn [bind]. rewrite (handle_data_quote x _ Hne) by reflexivity.
    unfold handle_endtag, get_content, Py.join. simpl.
    rewrite <- !app_assoc. reflexivity.
  - change (handle_starttag (py "ul") a init)
      with (Ok (set_in_list true
                  (set_list_level 1 (set_current_tag (Some (py "ul")) init)))).
    cbn [bind].
    change (handle_starttag (py "li") []
              (set_in_list true
                 (set_list_level 1 (set_current_tag (Some (py "ul")) init))))
      with (Ok (append (py "- ")
                  (set_in_list true
                     (set_list_level 1
                        (set_current_tag (Some (py "li")) init))))).
    cbn [bind]. rewrite (handle_data_nonempty x _ Hne).
    unfold handle_endtag, get_content, Py.join. simpl.
    destruct (clean x); [congruence | reflexivity].
Qed.

Lemma element_rendering_witness :
  parse_html (strong_doc [] (py "x")) = Ok (py "**" ++ clean (py "x") ++ py "**").
Proof.
  apply (element_rendering [] (py "x")). discriminate.
Defined.

(** ** Spans *)

(** X18.  The close of a span takes one from [small_text_level] whenever
    it is positive, whether or not the span that closes had added one.  So
    a span with a small style, opened and closed, leaves the level where
    it was; a span with any other style, opened and closed inside a small
    one, takes the level down by one and ends the small rendering
    early. *)
Theorem span_pair_level a st style :
  style_of a = Some style ->
  0 <= small_text_level st ->
  exists st1,
    handle_starttag (py "span") a st = Ok st1 /\
    small_text_level (handle_endtag (py "span") st1) =
      if small_style style then small_text_level st
      else Z.max 0 (small_text_level st - 1).
Proof.
  intros Hs Hl. rewrite handle_starttag_span, Hs. unfold small_style.
  cbn [py_in bind].
  destruct (Py.contains (py "font-size:0.8em") style); cbn [bind orb];
    [|destruct (Py.contains (py "opacity:0.8") style); cbn [bind]];
    eexists; (split; [reflexivity|]); rewrite close_span_level;
    cbn [small_text_level set_small_text_level set_current_tag];
    match goal with
    | |- context [?x <? ?y] => destruct (Z.ltb_spec x y)
    end; lia.
Qed.

Lemma span_pair_level_witness :
  exists st1,
    handle_starttag (py "span") [] (set_small_text_level 1 init) = Ok st1 /\
    small_text_level (handle_endtag (py "span") st1) =
      if small_style (py "")
      then small_text_level (set_small_text_level 1 init)
      else Z.max 0 (small_text_level (set_small_text_level 1 init) - 1).
Proof.
  apply (span_pair_level [] (set_small_text_level 1 init) (py ""));
    [reflexivity | simpl; lia].
Defined.

(** ** Text after a close tag *)

(** X19.  Every end tag clears the current tag, so the text that follows an
    end tag is never rendered as a heading, also when an [h1] is still
    open: it is bold, quoted, small or plain, in this order. *)
Theorem data_after_close tag st data :
  Py.strip data <> [] ->
  handle_data data (handle_endtag tag st) =
    let st1 := handle_endtag tag st in
    if in_strong st1 then append (py "**" ++ clean data ++ py "**") st1
    else if in_blockquote st1 then
      append (py "> " ++ clean data ++ [Py.nl]) st1
    else if 0 <? small_text_level st1 then
      append (py " *(" ++ clean data ++ py ")*") st1
    else append (clean data) st1.
Proof.
  intros Hne. cbv zeta.
  assert (Ht : current_tag (handle_endtag tag st) = None) by reflexivity.
  remember (handle_endtag tag st) as st1 eqn:E1. clear E1.
  destruct (clean_shape data Hne) as (Hc & _).
  destruct (in_strong st1) eqn:Es.
  - rewrite (handle_data_nonempty data _ Hne), Ht, Es.
    rewrite andb_false_r. reflexivity.
  - destruct (in_blockquote st1) eqn:Eb.
    + apply handle_data_quote; [exact Hne|].
      unfold quote_context. rewrite Ht, Es, Eb, andb_false_r. reflexivity.
    + rewrite (handle_data_nonempty data _ Hne), Ht, Es, Eb.
      rewrite andb_false_r. cbn [tag_is].
      destruct (0 <? small_text_level st1); [reflexivity|].
      destruct (clean data); [congruence | reflexivity].
Qed.

Lemma data_after_close_witness :
  handle_data (py "tail")
    (handle_endtag (py "span") (set_in_header true init)) =
  append (clean (py "tail"))
    (handle_endtag (py "span") (set_in_header true init)).
Proof.
  apply (data_after_close (py "span") (set_in_header true init) (py "tail")).
  discriminate.
Defined.

(** ** Tags outside the vocabulary *)

(** X20.  A start tag other than [h1], [h3], [strong], [blockquote], [ul],
    [li] and [span] never raises, whatever its attributes, and only
    becomes the current tag; an end tag other than these and [p] only
    clears the current tag. *)
Theorem other_tags tag a st :
  ~ In tag [py "h1"; py "h3"; py "strong"; py "blockquote"; py "ul";
            py "li"; py "span"] ->
  handle_starttag tag a st = Ok (set_current_tag (Some tag) st) /\
  (tag <> py "p" -> handle_endtag tag st = set_current_tag None st).
Proof.
  intros Hn.
  split; [|intros Hp]; unfold handle_starttag, handle_endtag; by_tag tag;
    try reflexivity; exfalso; try (apply Hp; reflexivity);
    apply Hn; simpl; tauto.
Qed.

Lemma other_tags_witness :
  handle_starttag (py "div") [(py "style", None)] init =
    Ok (set_current_tag (Some (py "div")) init).
Proof.
  apply (other_tags (py "div") [(py "style", None)] init).
  simpl. intros H. repeat (destruct H as [H|H]; [discriminate|]). exact H.
Defined.

(** ** The style of a start tag *)

Lemma dict_get_app key d a b :
  dict_get key d (a ++ b) = dict_get key (dict_get key d a) b.
Proof. unfold dict_get. apply fold_left_app. Qed.

Lemma dict_get_absent key d a :
  Forall (fun kv => fst kv <> key) a -> dict_get key d a = d.
Proof.
  intros H. revert d. induction H as [|kv a Hk _ IH]; intros d;
    [reflexivity|].
  unfold dict_get in *. simpl.
  destruct (Py.eqb (fst kv) key) eqn:E; [|apply IH].
  apply eqb_eq in E. contradiction.
Qed.

(** X21.  The style a start tag is tested with is the empty text when no
    attribute is named [style], and the value of the last such attribute
    when there are several; the attributes after the last [style] do not
    matter. *)
Theorem style_lookup :
  (forall a,
      Forall (fun kv => fst kv <> py "style") a ->
      style_of a = Some (py "")) /\
  (forall a v b,
      Forall (fun kv => fst kv <> py "style") b ->
      style_of (a ++ (py "style", v) :: b) = v).
Proof.
  split.
  - intros a H. apply dict_get_absent, H.
  - intros a v b H. unfold style_of.
    rewrite dict_get_app.
    change (dict_get (py "style") (dict_get (py "style") (Some (py "")) a)
              ((py "style", v) :: b))
      with (dict_get (py "style") v b).
    apply dict_get_absent, H.
Qed.

Lemma style_lookup_witness :
  style_of [(py "class", Some (py "x"))] = Some (py "") /\
  style_of ([(py "style", Some (py "a"))] ++
            (py "style", Some (py "circle")) :: [(py "id", None)]) =
    Some (py "circle").
Proof.
  split.
  - apply (proj1 style_lookup). repeat constructor. discriminate.
  - apply (proj2 style_lookup). repeat constructor. discriminate.
Defined.

(** ** The flags that are never read *)

Lemma quote_line_forget st1 st2 l :
  forget_hints st1 = forget_hints st2 ->
  forget_hints (quote_line st1 l) = forget_hints (quote_line st2 l).
Proof.
  intros H. unfold quote_line. destruct (Py.strip l); [exact H|].
  destruct st1, st2. unfold forget_hints in *. simpl in *.
  inversion H; subst. reflexivity.
Qed.

Lemma quote_lines_forget lines :
  forall st1 st2,
    forget_hints st1 = forget_hints st2 ->
    forget_hints (fold_left quote_line lines st1) =
      forget_hints (fold_left quote_line lines st2).
Proof.
  induction lines as [|l lines IH]; intros st1 st2 H; simpl; [exact H|].
  apply IH, quote_line_forget, H.
Qed.

Lemma handle_forget e st1 st2 :
  forget_hints st1 = forget_hints st2 ->
  match handle st1 e, handle st2 e with
  | Ok s1, Ok s2 => forget_hints s1 = forget_hints s2
  | Raise x, Raise y => x = y
  | _, _ => False
  end.
Proof.
  intros H. destruct e as [tag a | tag | data]; cbn [handle].
  - destruct st1, st2. unfold forget_hints in H. simpl in H.
    inversion H; subst; clear H.
    unfold handle_starttag. fold (style_of a). by_tag tag; simpl;
      try reflexivity.
    + destruct (style_of a); simpl; reflexivity.
    + destruct (style_of a) as [style|]; simpl; [|reflexivity].
      destruct (Py.contains (py "font-size:0.8em") style); simpl;
        [|destruct (Py.contains (py "opacity:0.8") style)]; reflexivity.
  - destruct st1, st2. unfold forget_hints in H. simpl in H.
    inversion H; subst; clear H.
    unfold handle_endtag. by_tag tag; simpl;
      repeat match goal with
             | |- context [if ?b then _ else _] => destruct b
             end; reflexivity.
  - unfold handle_data. destruct (Py.strip data) as [|c t]; [exact H|].
    assert (Hf : forall f, forget_hints (append f st1) =
                          forget_hints (append f st2)).
    { intros f. destruct st1, st2. unfold forget_hints in *. simpl in *.
      inversion H; subst. reflexivity. }
    assert (Hq : forall l, forget_hints (fold_left quote_line l st1) =
                          forget_hints (fold_left quote_line l st2))
      by (intros l; apply quote_lines_forget, H).
    assert (E : in_header st1 = in_header st2 /\
                current_tag st1 = current_tag st2 /\
                in_strong st1 = in_strong st2 /\
                in_blockquote st1 = in_blockquote st2 /\
                small_text_level st1 = small_text_level st2).
    { destruct st1, st2. unfold forget_hints in H. simpl in *.
      inversion H; subst. repeat split. }
    destruct E as (-> & -> & -> & -> & ->).
    repeat match goal with
           | |- context [if ?b then _ else _] => destruct b
           end; auto.
Qed.

(** X22.  The flags [in_list] and [in_title] are written and never read:
    two runs over the same callbacks from states that differ in these
    flags only raise alike or return the same text. *)
Theorem hints_never_read evs :
  forall st1 st2,
    forget_hints st1 = forget_hints st2 ->
    rendered evs st1 = rendered evs st2.
Proof.
  unfold rendered.
  induction evs as [|e evs IH]; intros st1 st2 H; simpl.
  - apply (f_equal content) in H. simpl in H.
    unfold get_content. now rewrite H.
  - pose proof (handle_forget e st1 st2 H) as Hh.
    destruct (handle st1 e) as [s1|x], (handle st2 e) as [s2|y];
      simpl; try contradiction.
    + apply IH, Hh.
    + now subst.
Qed.

Lemma hints_never_read_witness :
  rendered h1_doc (set_in_list true init) = rendered h1_doc init.
Proof.
  apply (hints_never_read h1_doc (set_in_list true init) init).
  reflexivity.
Defined.

(** ** The run of [main] *)

Lemma parse_html_file_fails_iff t :
  (exists x, parse_html_file t = Failed x) <->
  file_fails (Some t) = true.
Proof.
  unfold parse_html_file, file_fails.
  destruct (feed_raises_iff (callbacks t) init) as [Hr Hok].
  destruct (existsb bare_style (callbacks t)) eqn:E.
  - rewrite (proj2 Hr eq_refl). simpl. split; eauto.
  - destruct (Hok eq_refl) as [st' E']. rewrite E'. simpl.
    destruct (raises_after t).
    + split; eauto.
    + split; [intros [x H]; discriminate | discriminate].
Qed.

Lemma main_loop_outputs files outs :
  Forall2 file_output files outs ->
  forall acc, main_loop files acc = Done (combine acc outs).
Proof.
  induction 1 as [|f o files outs Hf _ IH]; intros acc; [reflexivity|].
  destruct f as [t|], o as [c|]; simpl in Hf; try contradiction.
  - simpl. rewrite Hf. apply IH.
  - simpl. apply IH.
Qed.

Lemma main_loop_fails files :
  forall acc,
    (exists x, main_loop files acc = Failed x) <->
    existsb file_fails files = true.
Proof.
  induction files as [|[t|] files IH]; intros acc.
  - simpl. split; [intros [x H]; discriminate | discriminate].
  - cbn [main_loop existsb].
    pose proof (parse_html_file_fails_iff t) as Ht.
    destruct (parse_html_file t) as [c|x].
    + destruct (file_fails (Some t)).
      * destruct (proj2 Ht eq_refl) as [y Hy]. discriminate.
      * cbn [orb]. apply IH.
    + rewrite (proj1 Ht (ex_intro _ x eq_refl)). cbn [orb].
      split; eauto.
  - cbn [main_loop existsb file_fails orb]. apply IH.
Qed.


